(** * serverless-plugin-warmup: the generators of [src/warmer.js]

    [src/warmer.js] holds three functions.  Two of them build documents in
    memory ([addWarmUpFunctionRoleToResources], the IAM role of a warmer, and
    [addWarmUpFunctionToService], its entry in the function manifest); the
    third, [createWarmUpFunctionArtifact], renders a script from a template
    literal and writes it to disk.  The rendered script is a program of its
    own ([logVerbose], [getConcurrency], [warmUp]); its functions are embedded
    here from the template's lines, next to the text that carries them.

    Conventions of the embedding.
    - A JS string is the list of its UTF-8 bytes ([string]).  Case mapping is
      the ASCII one; function and warmer names are ASCII identifiers.
    - A JS number is an integer ([Z]) or [NaN].  Numbers that come from the
      configuration are integers within 2^53 in absolute value, which JS
      holds exactly and prints in plain decimal.  [parseInt] of a longer
      digit string is rounded by JS and kept exact here: both are beyond
      2^32 - 1, the largest length [Array] takes, and differ in print only.
    - An exception or a rejected promise is a [Throw] completion.
    - Objects keep their properties in enumeration order (association
      lists); [process.env] is a finite map.
    - What the script does to the outside is a trace: the requests sent and
      the lines written.  The async callbacks run as the event loop runs
      them: each one up to its first [await] when [functions.map] calls it,
      and the rest when its batch has settled, in an order the model leaves
      open ([arrival]). *)

From Stdlib Require Import ZArith Lia Ascii String List Permutation.
From stdpp Require Import base option list strings gmap pretty.

#[local] Set Warnings "-register-all".

(** ** JavaScript values *)

Inductive JsError : Type :=
| TypeError (message : string)
| RangeError (message : string)
| HostError (detail : string).

Inductive Completion (A : Type) : Type :=
| Return (a : A)
| Throw (e : JsError).

Arguments Return {A} a.
Arguments Throw {A} e.

(** An array carries, besides its elements, the named properties that were
    assigned to it (arrays are objects). *)
Inductive JsValue : Type :=
| JUndefined
| JNull
| JBool (b : bool)
| JNum (n : Z)
| JStr (s : string)
| JArr (elems : list JsValue) (named : list (string * JsValue))
| JObj (props : list (string * JsValue)).

Definition jarray (elems : list JsValue) : JsValue := JArr elems [].

Definition typeof (v : JsValue) : string :=
  match v with
  | JUndefined => "undefined"
  | JNull => "object"
  | JBool _ => "boolean"
  | JNum _ => "number"
  | JStr _ => "string"
  | JArr _ _ => "object"
  | JObj _ => "object"
  end.

Definition string_truthy (s : string) : bool := negb (String.eqb s "").

Definition truthy (v : JsValue) : bool :=
  match v with
  | JUndefined | JNull => false
  | JBool b => b
  | JNum n => negb (n =? 0)%Z
  | JStr s => string_truthy s
  | JArr _ _ | JObj _ => true
  end.

(** [o[k]] on the own properties of an object; an absent property reads
    [undefined]. *)
Fixpoint own (k : string) (props : list (string * JsValue)) : JsValue :=
  match props with
  | [] => JUndefined
  | (k', v) :: rest => if String.eqb k' k then v else own k rest
  end.

(** [o[k] = v]: an existing property keeps its place, a new one goes last. *)
Fixpoint assign (k : string) (v : JsValue) (props : list (string * JsValue))
  : list (string * JsValue) :=
  match props with
  | [] => [(k, v)]
  | (k', v') :: rest =>
      if String.eqb k' k then (k', v) :: rest else (k', v') :: assign k v rest
  end.

(** Property read [v.k].  The keys this program reads ([Resources], a role
    identifier) are neither array indices nor members of a prototype, so
    only own named properties answer. *)
Definition get_prop (v : JsValue) (k : string) : Completion JsValue :=
  match v with
  | JUndefined =>
      Throw (TypeError ("Cannot read properties of undefined (reading '" +:+ k +:+ "')"))
  | JNull =>
      Throw (TypeError ("Cannot read properties of null (reading '" +:+ k +:+ "')"))
  | JObj props => Return (own k props)
  | JArr _ named => Return (own k named)
  | JBool _ | JNum _ | JStr _ => Return JUndefined
  end.

(** Property write [v.k = x], returning the object after the write.  On a
    primitive the write is dropped (the module is not in strict mode). *)
Definition set_prop (v : JsValue) (k : string) (x : JsValue) : Completion JsValue :=
  match v with
  | JUndefined =>
      Throw (TypeError ("Cannot set properties of undefined (setting '" +:+ k +:+ "')"))
  | JNull =>
      Throw (TypeError ("Cannot set properties of null (setting '" +:+ k +:+ "')"))
  | JObj props => Return (JObj (assign k x props))
  | JArr elems named => Return (JArr elems (assign k x named))
  | JBool _ | JNum _ | JStr _ => Return v
  end.

(** ** Strings *)

Fixpoint string_map (f : ascii -> ascii) (s : string) : string :=
  match s with
  | EmptyString => EmptyString
  | String c rest => String (f c) (string_map f rest)
  end.

Definition upper_ascii (c : ascii) : ascii :=
  let n := nat_of_ascii c in
  if (97 <=? n)%nat && (n <=? 122)%nat then ascii_of_nat (n - 32) else c.

Definition lower_ascii (c : ascii) : ascii :=
  let n := nat_of_ascii c in
  if (65 <=? n)%nat && (n <=? 90)%nat then ascii_of_nat (n + 32) else c.

Definition toUpperCase (s : string) : string := string_map upper_ascii s.
Definition toLowerCase (s : string) : string := string_map lower_ascii s.

(** [s.replace(/-/g, '_')] *)
Definition replace_hyphens (s : string) : string :=
  string_map (fun c => if Ascii.eqb c "-" then "_"%char else c) s.

(** The double quote, for the texts that contain one. *)
Definition dquote : string := String "034" EmptyString.

(** ** The configuration objects

    Fields the code only passes on are [JsValue]s ([JUndefined] when absent);
    fields it computes with have the type it assumes ([name] and
    [pathHandler] strings, [functions] an array, [environment] an object). *)

Record FunctionRef : Type := { fr_name : string }.

Record WarmerConfig : Type := {
  wc_name : string;
  wc_role : JsValue;
  wc_roleName : JsValue;
  wc_functions : list FunctionRef;
  wc_events : JsValue;
  wc_memorySize : JsValue;
  wc_timeout : JsValue;
  wc_environment : list (string * JsValue);
  wc_tracing : JsValue;
  wc_logRetentionInDays : JsValue;
  wc_tags : JsValue;
  wc_vpc : JsValue;
  wc_architecture : JsValue;
  wc_package : JsValue;
  wc_pathHandler : string
}.

(** The host framework's service object: its name [service.service], the
    optional [resources] section and the function manifest [functions]. *)
Record Service : Type := {
  svc_service : JsValue;
  svc_resources : JsValue;
  svc_functions : list (string * JsValue)
}.

(** [warmerConfig.role = r] *)
Definition with_role (r : JsValue) (c : WarmerConfig) : WarmerConfig :=
  {| wc_name := wc_name c; wc_role := r; wc_roleName := wc_roleName c;
     wc_functions := wc_functions c; wc_events := wc_events c;
     wc_memorySize := wc_memorySize c; wc_timeout := wc_timeout c;
     wc_environment := wc_environment c; wc_tracing := wc_tracing c;
     wc_logRetentionInDays := wc_logRetentionInDays c; wc_tags := wc_tags c;
     wc_vpc := wc_vpc c; wc_architecture := wc_architecture c;
     wc_package := wc_package c; wc_pathHandler := wc_pathHandler c |}.

(** [service.resources = r] *)
Definition with_resources (r : JsValue) (s : Service) : Service :=
  {| svc_service := svc_service s; svc_resources := r;
     svc_functions := svc_functions s |}.

(** [service.functions = f] *)
Definition with_functions (f : list (string * JsValue)) (s : Service) : Service :=
  {| svc_service := svc_service s; svc_resources := svc_resources s;
     svc_functions := f |}.

(** ** RoleSynthesizer and FunctionDefinitionSynthesizer

    [capitalize] is the helper of [./utils], and [path.sep] the separator of
    Node's [path] module on the host (one character); neither is part of
    [warmer.js]. *)

Section Synthesizers.

Variable capitalize : string -> string.
Variable path_sep : ascii.

(** [`WarmUpPlugin${capitalize(warmerName)}Role`] *)
Definition role_identifier (warmerName : string) : string :=
  "WarmUpPlugin" +:+ capitalize warmerName +:+ "Role".

(** The element [fn => ({ 'Fn::Sub': `arn:...:function:${fn.name}*` })] maps
    over [warmerConfig.functions]. *)
Definition invoke_resource (fn : FunctionRef) : JsValue :=
  JObj [("Fn::Sub",
         JStr ("arn:${AWS::Partition}:lambda:${AWS::Region}:${AWS::AccountId}:function:"
               +:+ fr_name fn +:+ "*"))].

Definition log_group_arn (warmerConfig : WarmerConfig) (suffix : string) : JsValue :=
  JObj [("Fn::Sub",
         JStr ("arn:${AWS::Partition}:logs:${AWS::Region}:${AWS::AccountId}:log-group:/aws/lambda/"
               +:+ wc_name warmerConfig +:+ suffix))].

(** The object literal assigned at [service.resources.Resources[role]]. *)
Definition role_document (service : Service) (stage : JsValue)
    (warmerName : string) (warmerConfig : WarmerConfig) : JsValue :=
  JObj [
    ("Type", JStr "AWS::IAM::Role");
    ("Properties", JObj [
      ("Path", JStr "/");
      ("RoleName",
        if truthy (wc_roleName warmerConfig) then wc_roleName warmerConfig
        else JObj [("Fn::Join", jarray [
               JStr "-";
               jarray [svc_service service; stage; JObj [("Ref", JStr "AWS::Region")];
                       JStr (toLowerCase warmerName); JStr "role"]])]);
      ("AssumeRolePolicyDocument", JObj [
        ("Version", JStr "2012-10-17");
        ("Statement", jarray [
          JObj [
            ("Effect", JStr "Allow");
            ("Principal", JObj [("Service", jarray [JStr "lambda.amazonaws.com"])]);
            ("Action", JStr "sts:AssumeRole")]])]);
      ("Policies", jarray [
        JObj [
          ("PolicyName", JObj [("Fn::Join", jarray [
             JStr "-";
             jarray [svc_service service; stage; JStr "warmer";
                     JStr (toLowerCase warmerName); JStr "policy"]])]);
          ("PolicyDocument", JObj [
            ("Version", JStr "2012-10-17");
            ("Statement", jarray [
              JObj [
                ("Effect", JStr "Allow");
                ("Action", jarray [JStr "logs:CreateLogGroup"; JStr "logs:CreateLogStream"]);
                ("Resource", jarray [log_group_arn warmerConfig ":*"])];
              JObj [
                ("Effect", JStr "Allow");
                ("Action", jarray [JStr "logs:PutLogEvents"]);
                ("Resource", jarray [log_group_arn warmerConfig ":*:*"])];
              JObj [
                ("Effect", JStr "Allow");
                ("Action", jarray [JStr "lambda:InvokeFunction"]);
                ("Resource", jarray (map invoke_resource (wc_functions warmerConfig)))];
              JObj [
                ("Effect", JStr "Allow");
                ("Action", jarray [
                   JStr "ec2:CreateNetworkInterface";
                   JStr "ec2:DescribeNetworkInterfaces";
                   JStr "ec2:DetachNetworkInterface";
                   JStr "ec2:DeleteNetworkInterface"]);
                ("Resource", JStr "*")]])])]])])].

Definition is_object_type (v : JsValue) : bool := String.eqb (typeof v) "object".

(** [addWarmUpFunctionRoleToResources(service, stage, warmerName,
    warmerConfig)] mutates both objects in place: the result is the pair
    after the call together with how the call completed (a [TypeError]
    leaves the mutations made before it). *)
Definition addWarmUpFunctionRoleToResources (service : Service) (stage : JsValue)
    (warmerName : string) (warmerConfig : WarmerConfig)
  : Service * WarmerConfig * Completion unit :=
  let warmerConfig := with_role (JStr (role_identifier warmerName)) warmerConfig in
  let service :=
    if negb (is_object_type (svc_resources service))
    then with_resources (JObj []) service else service in
  match get_prop (svc_resources service) "Resources" with
  | Throw e => (service, warmerConfig, Throw e)
  | Return Resources =>
      let service :=
        if negb (is_object_type Resources)
        then match set_prop (svc_resources service) "Resources" (JObj []) with
             | Return resources => with_resources resources service
             | Throw _ => service
             end
        else service in
      match get_prop (svc_resources service) "Resources" with
      | Throw e => (service, warmerConfig, Throw e)
      | Return Resources =>
          match set_prop Resources (role_identifier warmerName)
                  (role_document service stage warmerName warmerConfig) with
          | Throw e => (service, warmerConfig, Throw e)
          | Return Resources =>
              match set_prop (svc_resources service) "Resources" Resources with
              | Return resources => (with_resources resources service, warmerConfig, Return tt)
              | Throw e => (service, warmerConfig, Throw e)
              end
          end
      end
  end.

(** [s.split(path.sep).join(path.posix.sep)] *)
Definition to_posix (s : string) : string :=
  string_map (fun c => if Ascii.eqb c path_sep then "/"%char else c) s.

(** [...(c ? { k: v } : {})] *)
Definition spread_if (c : bool) (k : string) (v : JsValue) : list (string * JsValue) :=
  if c then [(k, v)] else [].

Definition is_defined (v : JsValue) : bool :=
  match v with JUndefined => false | _ => true end.

(** The object literal assigned at [service.functions[...]]. *)
Definition function_definition (warmerName : string) (warmerConfig : WarmerConfig)
  : list (string * JsValue) :=
  [ ("description",
      JStr ("Serverless WarmUp Plugin (warmer " +:+ dquote +:+ warmerName +:+ dquote +:+ ")"));
    ("events", wc_events warmerConfig);
    ("handler", JStr (to_posix (wc_pathHandler warmerConfig)));
    ("memorySize", wc_memorySize warmerConfig);
    ("name", JStr (wc_name warmerConfig)) ]
  ++ spread_if (truthy (wc_architecture warmerConfig)) "architecture"
       (wc_architecture warmerConfig)
  ++ [ ("runtime", JStr "nodejs22.x");
       ("package", wc_package warmerConfig);
       ("timeout", wc_timeout warmerConfig) ]
  ++ spread_if (negb (Nat.eqb (length (wc_environment warmerConfig)) 0)) "environment"
       (JObj (wc_environment warmerConfig))
  ++ spread_if (is_defined (wc_tracing warmerConfig)) "tracing" (wc_tracing warmerConfig)
  ++ spread_if (is_defined (wc_logRetentionInDays warmerConfig)) "logRetentionInDays"
       (wc_logRetentionInDays warmerConfig)
  ++ spread_if (truthy (wc_roleName warmerConfig)) "roleName" (wc_roleName warmerConfig)
  ++ spread_if (truthy (wc_role warmerConfig)) "role" (wc_role warmerConfig)
  ++ spread_if (truthy (wc_tags warmerConfig)) "tags" (wc_tags warmerConfig)
  ++ spread_if (truthy (wc_vpc warmerConfig)) "vpc" (wc_vpc warmerConfig)
  ++ [ ("layers", jarray []) ].

Definition function_key (warmerName : string) : string :=
  "warmUpPlugin" +:+ capitalize warmerName.

(** [addWarmUpFunctionToService(service, warmerName, warmerConfig)] *)
Definition addWarmUpFunctionToService (service : Service) (warmerName : string)
    (warmerConfig : WarmerConfig) : Service :=
  with_functions
    (assign (function_key warmerName)
       (JObj (function_definition warmerName warmerConfig))
       (svc_functions service))
    service.

End Synthesizers.

(** ** A state and completion monad

    [Js S A] is a computation over a state [S] that returns an [A] or
    throws; the state reached is kept in both cases. *)

Definition Js (S A : Type) : Type := S -> S * Completion A.

Definition ret {S A : Type} (a : A) : Js S A := fun s => (s, Return a).

Definition bind {S A B : Type} (m : Js S A) (k : A -> Js S B) : Js S B :=
  fun s =>
    match m s with
    | (s', Return a) => k a s'
    | (s', Throw e) => (s', Throw e)
    end.

(** [try { body } catch (e) { handler }] *)
Definition try_catch {S A : Type} (body : Js S A) (handler : JsError -> Js S A) : Js S A :=
  fun s =>
    match body s with
    | (s', Return a) => (s', Return a)
    | (s', Throw e) => handler e s'
    end.

(** A synchronous expression that may throw. *)
Definition lift {S A : Type} (c : Completion A) : Js S A := fun s => (s, c).

Notation "'let*' x ':=' m 'in' k" := (bind m (fun x => k))
  (at level 10, x name, m at level 100, k at level 200).
Notation "'run' m 'then' k" := (bind m (fun _ => k))
  (at level 10, m at level 100, k at level 200).

(** [l.map(f)] for an effectful [f], left to right. *)
Fixpoint mapM {S A B : Type} (f : A -> Js S B) (l : list A) : Js S (list B) :=
  match l with
  | [] => ret []
  | x :: rest =>
      let* y := f x in
      let* ys := mapM f rest in
      ret (y :: ys)
  end.

(** ** RuntimeArtifactSynthesizer: the rendered text *)

Definition nl : string := String "010" EmptyString.

(** The characters [JSON.stringify] escapes in a string. *)
Definition hex_digit (n : nat) : ascii :=
  if (n <? 10)%nat then ascii_of_nat (48 + n) else ascii_of_nat (87 + n).

Definition json_escape (c : ascii) : string :=
  let n := nat_of_ascii c in
  if Nat.eqb n 8 then "\b"
  else if Nat.eqb n 9 then "\t"
  else if Nat.eqb n 10 then "\n"
  else if Nat.eqb n 12 then "\f"
  else if Nat.eqb n 13 then "\r"
  else if Nat.eqb n 34 then "\" +:+ dquote
  else if Nat.eqb n 92 then "\\"
  else if (n <? 32)%nat
       then "\u00" +:+ String (hex_digit (n / 16)) (String (hex_digit (n mod 16)) EmptyString)
       else String c EmptyString.

Fixpoint json_escape_string (s : string) : string :=
  match s with
  | EmptyString => EmptyString
  | String c rest => json_escape c +:+ json_escape_string rest
  end.

Definition json_quote (s : string) : string :=
  dquote +:+ json_escape_string s +:+ dquote.

(** [JSON.stringify(v, null, '  ')] at the current indentation: [None] is
    the result [undefined].  An [undefined] array element prints [null], an
    [undefined] property is left out, and the named properties of an array
    are not printed.  A number (an integer within 2^53) prints in plain
    decimal. *)
Fixpoint stringify (indent : string) (v : JsValue) : option string :=
  let inner := indent +:+ "  " in
  let separator := "," +:+ nl +:+ inner in
  match v with
  | JUndefined => None
  | JNull => Some "null"
  | JBool b => Some (if b then "true" else "false")
  | JNum n => Some (pretty n)
  | JStr s => Some (json_quote s)
  | JArr elems _ =>
      match elems with
      | [] => Some "[]"
      | _ =>
          let items :=
            map (fun e => match stringify inner e with
                          | Some t => t
                          | None => "null"
                          end) elems in
          Some ("[" +:+ nl +:+ inner +:+ String.concat separator items
                +:+ nl +:+ indent +:+ "]")
      end
  | JObj props =>
      let items :=
        flat_map (fun kv => match stringify inner (snd kv) with
                            | Some t => [json_quote (fst kv) +:+ ": " +:+ t]
                            | None => []
                            end) props in
      match items with
      | [] => Some "{}"
      | _ => Some ("{" +:+ nl +:+ inner +:+ String.concat separator items
                   +:+ nl +:+ indent +:+ "}")
      end
  end.

(** A template literal prints [undefined] for an undefined value. *)
Definition interpolate (t : option string) : string :=
  match t with Some s => s | None => "undefined" end.

(** The template of [createWarmUpFunctionArtifact], up to the region. *)
Definition prelude_text : list string :=
  [ "/** Generated by Serverless WarmUp Plugin **/";
    "";
    "import { LambdaClient, InvokeCommand } from '@aws-sdk/client-lambda';";
    "import { NodeHttpHandler } from '@smithy/node-http-handler';";
    "";
    "const uninstrumentedLambdaClient = new LambdaClient({";
    "  apiVersion: '2015-03-31'," ].

(** The value of the [tracing ? ... : ...] expression. *)
Definition lambdaClient_text (tracing : bool) : string :=
  if tracing
  then "import * as AWSXRay from 'aws-xray-sdk';" +:+ nl
       +:+ "const lambdaClient = AWSXRay.captureAWSv3Client(uninstrumentedLambdaClient);"
  else "const lambdaClient = uninstrumentedLambdaClient;".

(** The text of [logVerbose]: its body is chosen when the script is rendered. *)
Definition logVerbose_text (verbose : bool) : list string :=
  [ "function logVerbose(str) {";
    "  " +:+ (if verbose then "console.log(str);" else "");
    "}" ].

(** The text of [getConcurrency]. *)
Definition getConcurrency_text : list string :=
  [ "function getConcurrency(func, envVars) {";
    "  const functionConcurrency = envVars[`WARMUP_CONCURRENCY_${func.name.toUpperCase().replace(/-/g, '_')}`];";
    "";
    "  if (functionConcurrency) {";
    "    const concurrency = parseInt(functionConcurrency);";
    "    logVerbose(`Warming up function: ${func.name} with concurrency: ${concurrency} (from function-specific environment variable)`);";
    "    return concurrency;";
    "  }";
    "";
    "  if (envVars.WARMUP_CONCURRENCY) {";
    "    const concurrency = parseInt(envVars.WARMUP_CONCURRENCY);";
    "    logVerbose(`Warming up function: ${func.name} with concurrency: ${concurrency} (from global environment variable)`);";
    "    return concurrency;";
    "  }";
    "";
    "  const concurrency = parseInt(func.config.concurrency);";
    "  logVerbose(`Warming up function: ${func.name} with concurrency: ${concurrency}`);";
    "  return concurrency;";
    "}" ].

(** The text of [warmUp], the entry point of the script. *)
Definition warmUp_text : list string :=
  [ "export const warmUp = async (event, context) => {";
    "  logVerbose('Warm Up Start');";
    "";
    "  const invokes = await Promise.all(functions.map(async (func) => {";
    "    const concurrency = getConcurrency(func, process.env);";
    "";
    "    const clientContext = func.config.clientContext !== undefined";
    "      ? func.config.clientContext";
    "      : func.config.payload;";
    "";
    "    const invokeCommand = new InvokeCommand({";
    "      ClientContext: clientContext";
    "        ? Buffer.from(`{" +:+ dquote +:+ "custom" +:+ dquote +:+ ":${clientContext}}`).toString('base64')";
    "        : undefined,";
    "      FunctionName: func.name,";
    "      InvocationType: 'RequestResponse',";
    "      LogType: 'None',";
    "      Qualifier: func.config.alias || process.env.SERVERLESS_ALIAS,";
    "      Payload: func.config.payload";
    "    });";
    "";
    "    try {";
    "      await Promise.all(Array(concurrency).fill(0).map(async () => await lambdaClient.send(invokeCommand)));";
    "      logVerbose(`Warm Up Invoke Success: ${func.name}`);";
    "      return true;";
    "    } catch (e) {";
    "      console.error(`Warm Up Invoke Error: ${func.name}`, e);";
    "      return false;";
    "    }";
    "  }));";
    "";
    "  logVerbose(`Warm Up Finished with ${invokes.filter(r => !r).length} invoke errors`);";
    "}" ].

(** The template literal [warmUpFunction]: it opens with a line break. *)
Definition render (functions : JsValue) (tracing verbose : bool) (region : string) : string :=
  String.concat nl
    ([ "" ] ++ prelude_text
     ++ [ "  region: '" +:+ region +:+ "',";
          "  requestHandler: new NodeHttpHandler({ connectionTimeout: 1000 }),";
          "});";
          "";
          lambdaClient_text tracing;
          "";
          "const functions = " +:+ interpolate (stringify "" functions) +:+ ";";
          "" ]
     ++ logVerbose_text verbose ++ [ "" ]
     ++ getConcurrency_text ++ [ "" ]
     ++ warmUp_text).

(** ** RuntimeArtifactSynthesizer: the effects

    The calls made to the host ([fs.mkdir], [fs.writeFile], [exec]) are
    recorded in order; [host] tells, from the calls made so far, whether a
    call fails.  [path_join] is [path.join] of Node's [path] module. *)

Inductive Effect : Type :=
| Mkdir (path : string)
| WriteFile (path : string) (data : string)
| Exec (command : string) (cwd : string).

Section Artifact.

Variable path_join : string -> string -> string.
Variable host : list Effect -> Effect -> option JsError.

Definition perform (e : Effect) : Js (list Effect) unit :=
  fun calls =>
    (calls ++ [e],
     match host calls e with
     | None => Return tt
     | Some err => Throw err
     end).

(** [createWarmUpFunctionArtifact(functions, tracing, verbose, region,
    handlerFolder)] *)
Definition createWarmUpFunctionArtifact (functions : JsValue) (tracing verbose : bool)
    (region handlerFolder : string) : Js (list Effect) unit :=
  let warmUpFunction := render functions tracing verbose region in
  run perform (Mkdir handlerFolder) then
  run perform (WriteFile (path_join handlerFolder "index.mjs") warmUpFunction) then
  if tracing then
    run perform (Exec "npm init -y" handlerFolder) then
    perform (Exec "npm install --save aws-xray-sdk-core" handlerFolder)
  else ret tt.

End Artifact.

(** ** The rendered script: numbers and encodings *)

Inductive JsNumber : Type :=
| NaN
| Int (n : Z).

(** [`${n}`] *)
Definition number_to_string (n : JsNumber) : string :=
  match n with
  | NaN => "NaN"
  | Int z => pretty z
  end.

Definition is_ascii_space (c : ascii) : bool :=
  let n := nat_of_ascii c in
  ((9 <=? n)%nat && (n <=? 13)%nat) || Nat.eqb n 32.

(** U+00A0 in UTF-8. *)
Definition is_space2 (a b : ascii) : bool :=
  Nat.eqb (nat_of_ascii a) 194 && Nat.eqb (nat_of_ascii b) 160.

(** U+1680, U+2000..U+200A, U+2028, U+2029, U+202F, U+205F, U+3000 and
    U+FEFF in UTF-8. *)
Definition is_space3 (a b c : ascii) : bool :=
  let x := nat_of_ascii a in
  let y := nat_of_ascii b in
  let z := nat_of_ascii c in
  (Nat.eqb x 225 && Nat.eqb y 154 && Nat.eqb z 128)
  || (Nat.eqb x 226 && Nat.eqb y 128
      && (((128 <=? z)%nat && (z <=? 138)%nat) || Nat.eqb z 168 || Nat.eqb z 169
          || Nat.eqb z 175))
  || (Nat.eqb x 226 && Nat.eqb y 129 && Nat.eqb z 159)
  || (Nat.eqb x 227 && Nat.eqb y 128 && Nat.eqb z 128)
  || (Nat.eqb x 239 && Nat.eqb y 187 && Nat.eqb z 191).

(** Leading white space and line terminators are skipped by [parseInt]. *)
Fixpoint trim_start (s : string) : string :=
  match s with
  | EmptyString => s
  | String a s1 =>
      if is_ascii_space a then trim_start s1
      else
        match s1 with
        | EmptyString => s
        | String b s2 =>
            if is_space2 a b then trim_start s2
            else
              match s2 with
              | EmptyString => s
              | String c s3 => if is_space3 a b c then trim_start s3 else s
              end
        end
  end.

Definition digit_of (radix : Z) (c : ascii) : option Z :=
  let n := Z.of_nat (nat_of_ascii c) in
  let d :=
    if (48 <=? n)%Z && (n <=? 57)%Z then Some (n - 48)%Z
    else if (97 <=? n)%Z && (n <=? 122)%Z then Some (n - 87)%Z
    else if (65 <=? n)%Z && (n <=? 90)%Z then Some (n - 55)%Z
    else None in
  match d with
  | Some v => if (v <? radix)%Z then Some v else None
  | None => None
  end.

(** The value of the longest prefix of digits, read from [acc]. *)
Fixpoint digits_value (radix acc : Z) (s : string) : Z :=
  match s with
  | EmptyString => acc
  | String c rest =>
      match digit_of radix c with
      | Some d => digits_value radix (acc * radix + d)%Z rest
      | None => acc
      end
  end.

Definition parse_digits (radix : Z) (s : string) : JsNumber :=
  match s with
  | EmptyString => NaN
  | String c _ =>
      match digit_of radix c with
      | Some _ => Int (digits_value radix 0 s)
      | None => NaN
      end
  end.

Definition strip_sign (s : string) : Z * string :=
  match s with
  | String c rest =>
      if Ascii.eqb c "-" then ((-1)%Z, rest)
      else if Ascii.eqb c "+" then (1%Z, rest)
      else (1%Z, s)
  | EmptyString => (1%Z, s)
  end.

Definition strip_hex_prefix (s : string) : Z * string :=
  match s with
  | String c (String x rest) =>
      if Ascii.eqb c "0" && (Ascii.eqb x "x" || Ascii.eqb x "X")
      then (16%Z, rest) else (10%Z, s)
  | _ => (10%Z, s)
  end.

(** [parseInt(input)] with no radix. *)
Definition parseInt (input : string) : JsNumber :=
  let (sign, s) := strip_sign (trim_start input) in
  let (radix, s) := strip_hex_prefix s in
  match parse_digits radix s with
  | NaN => NaN
  | Int n => Int (sign * n)
  end.

Definition base64_alphabet : string :=
  "ABCDEFGHIJKLMNOPQRSTUVWXYZabcdefghijklmnopqrstuvwxyz0123456789+/".

Definition base64_char (n : nat) : ascii :=
  match String.get n base64_alphabet with
  | Some c => c
  | None => "="%char
  end.

Fixpoint base64_bytes (bytes : list nat) : string :=
  match bytes with
  | [] => EmptyString
  | [a] =>
      String (base64_char (a / 4)) (String (base64_char (a mod 4 * 16)) "==")
  | [a; b] =>
      String (base64_char (a / 4))
        (String (base64_char (a mod 4 * 16 + b / 16))
           (String (base64_char (b mod 16 * 4)) "="))
  | a :: b :: c :: rest =>
      String (base64_char (a / 4))
        (String (base64_char (a mod 4 * 16 + b / 16))
           (String (base64_char (b mod 16 * 4 + c / 64))
              (String (base64_char (c mod 64)) (base64_bytes rest))))
  end.

(** [Buffer.from(s).toString('base64')] *)
Definition base64 (s : string) : string :=
  base64_bytes (map nat_of_ascii (list_ascii_of_string s)).

(** ** The rendered script: data *)

(** [func.config]: [concurrency] is an integer within 2^53, the other
    fields are strings or [undefined] ([None]). *)
Record FunctionConfig : Type := {
  cfg_concurrency : Z;
  cfg_clientContext : option string;
  cfg_payload : option string;
  cfg_alias : option string
}.

(** An element of the embedded constant [functions]. *)
Record FunctionTarget : Type := {
  fn_name : string;
  fn_config : FunctionConfig
}.

(** The input of [new InvokeCommand]; [None] is [undefined]. *)
Record InvokeCommandInput : Type := {
  ClientContext : option string;
  FunctionName : string;
  InvocationType : string;
  LogType : string;
  Qualifier : option string;
  Payload : option string
}.

(** What a run of the script does to the outside: the requests sent through
    [lambdaClient], in the order of the [send] calls, and the lines written
    by [console.log] and [console.error]. *)
Record World : Type := {
  requests : list InvokeCommandInput;
  stdout : list string;
  stderr : list (string * JsError)
}.

(** Truthiness of a value that is a string or [undefined]. *)
Definition truthy_string (v : option string) : bool :=
  match v with
  | Some s => string_truthy s
  | None => false
  end.

(** A settled async callback of [functions.map]: it either returned before
    any [await], or is suspended at [await Promise.all(...)] on the promises
    of the requests it sent (each named by its position in [requests]). *)
Inductive Started : Type :=
| Returned (r : bool)
| Awaiting (func : FunctionTarget) (batch : list nat).

(** [Array(n)]: a [RangeError] unless [n] is an integer from 0 to 2^32 - 1. *)
Definition js_Array (n : JsNumber) : Completion (list JsValue) :=
  match n with
  | Int z =>
      if (0 <=? z)%Z && (z <=? 4294967295)%Z
      then Return (repeat JUndefined (Z.to_nat z))
      else Throw (RangeError "Invalid array length")
  | NaN => Throw (RangeError "Invalid array length")
  end.

(** [a.fill(v)] *)
Definition fill (v : JsValue) (a : list JsValue) : list JsValue :=
  map (fun _ => v) a.

(** ** The rendered script: functions

    [functions] and [verbose] are fixed when the script is rendered.
    [lambda] is the service behind [lambdaClient]: [lambda t] is the error
    the request number [t] fails with, if it fails.  [arrival] ranks the
    callbacks by the time their awaited batch settles. *)

Section Script.

Variable functions : list FunctionTarget.
Variable verbose : bool.
Variable lambda : nat -> option JsError.
Variable arrival : nat -> nat.

Definition console_log (str : string) : Js World unit :=
  fun w =>
    ({| requests := requests w; stdout := stdout w ++ [str]; stderr := stderr w |},
     Return tt).

Definition console_error (str : string) (e : JsError) : Js World unit :=
  fun w =>
    ({| requests := requests w; stdout := stdout w; stderr := stderr w ++ [(str, e)] |},
     Return tt).

(** [function logVerbose(str) { ${verbose ? 'console.log(str);' : ''} }] *)
Definition logVerbose (str : string) : Js World unit :=
  if verbose then console_log str else ret tt.

Definition concurrency_key (func : FunctionTarget) : string :=
  "WARMUP_CONCURRENCY_" +:+ replace_hyphens (toUpperCase (fn_name func)).

Definition getConcurrency (func : FunctionTarget) (envVars : gmap string string)
  : Js World JsNumber :=
  let functionConcurrency := envVars !! concurrency_key func in
  if truthy_string functionConcurrency then
    let concurrency := parseInt (interpolate functionConcurrency) in
    run logVerbose ("Warming up function: " +:+ fn_name func +:+ " with concurrency: "
                    +:+ number_to_string concurrency
                    +:+ " (from function-specific environment variable)") then
    ret concurrency
  else if truthy_string (envVars !! "WARMUP_CONCURRENCY") then
    let concurrency := parseInt (interpolate (envVars !! "WARMUP_CONCURRENCY")) in
    run logVerbose ("Warming up function: " +:+ fn_name func +:+ " with concurrency: "
                    +:+ number_to_string concurrency
                    +:+ " (from global environment variable)") then
    ret concurrency
  else
    let concurrency := parseInt (pretty (cfg_concurrency (fn_config func))) in
    run logVerbose ("Warming up function: " +:+ fn_name func +:+ " with concurrency: "
                    +:+ number_to_string concurrency) then
    ret concurrency.

(** [func.config.clientContext !== undefined ? func.config.clientContext
    : func.config.payload] *)
Definition clientContext_of (func : FunctionTarget) : option string :=
  match cfg_clientContext (fn_config func) with
  | Some c => Some c
  | None => cfg_payload (fn_config func)
  end.

(** The argument of [new InvokeCommand({...})]. *)
Definition invokeCommand_of (func : FunctionTarget) (env : gmap string string)
  : InvokeCommandInput :=
  let clientContext := clientContext_of func in
  {| ClientContext :=
       if truthy_string clientContext
       then Some (base64 ("{" +:+ dquote +:+ "custom" +:+ dquote +:+ ":"
                          +:+ interpolate clientContext +:+ "}"))
       else None;
     FunctionName := fn_name func;
     InvocationType := "RequestResponse";
     LogType := "None";
     Qualifier :=
       if truthy_string (cfg_alias (fn_config func))
       then cfg_alias (fn_config func)
       else env !! "SERVERLESS_ALIAS";
     Payload := cfg_payload (fn_config func) |}.

(** [lambdaClient.send(invokeCommand)]: the request goes out, the promise
    returned is named by the request's number. *)
Definition lambdaClient_send (invokeCommand : InvokeCommandInput) : Js World nat :=
  fun w =>
    ({| requests := requests w ++ [invokeCommand]; stdout := stdout w; stderr := stderr w |},
     Return (length (requests w))).

(** [Promise.all(batch)] once the promises have settled: it rejects with the
    error of a failed request (here the first of the batch), and fulfils
    when there is none. *)
Fixpoint Promise_all (batch : list nat) : Completion unit :=
  match batch with
  | [] => Return tt
  | t :: rest =>
      match lambda t with
      | Some e => Throw e
      | None => Promise_all rest
      end
  end.

(** The callback [async (func) => {...}] from its call to its first
    [await]: [Array(concurrency)] is evaluated inside the [try], and every
    [send] of the batch is called before the callback is suspended. *)
Definition start (env : gmap string string) (func : FunctionTarget) : Js World Started :=
  let* concurrency := getConcurrency func env in
  let invokeCommand := invokeCommand_of func env in
  try_catch
    (let* slots := lift (js_Array concurrency) in
     let* batch := mapM (fun _ => lambdaClient_send invokeCommand) (fill (JNum 0) slots) in
     ret (Awaiting func batch))
    (fun e =>
       run console_error ("Warm Up Invoke Error: " +:+ fn_name func) e then
       ret (Returned false)).

(** The rest of the callback, run when its batch has settled. *)
Definition resume (s : Started) : Js World bool :=
  match s with
  | Returned r => ret r
  | Awaiting func batch =>
      try_catch
        (run lift (Promise_all batch) then
         run logVerbose ("Warm Up Invoke Success: " +:+ fn_name func) then
         ret true)
        (fun e =>
           run console_error ("Warm Up Invoke Error: " +:+ fn_name func) e then
           ret false)
  end.

(** The order in which the suspended callbacks resume: by [arrival], ties
    in the order of [functions]. *)
Fixpoint insert_by_arrival (i : nat) (l : list nat) : list nat :=
  match l with
  | [] => [i]
  | j :: rest =>
      if (arrival i <=? arrival j)%nat then i :: l else j :: insert_by_arrival i rest
  end.

Fixpoint sort_by_arrival (l : list nat) : list nat :=
  match l with
  | [] => []
  | i :: rest => insert_by_arrival i (sort_by_arrival rest)
  end.

Definition settle_order (n : nat) : list nat := sort_by_arrival (seq 0 n).

Definition resume_at (started : list Started) (w : World) (i : nat) : World :=
  match started !! i with
  | Some s => fst (resume s w)
  | None => w
  end.

(** The first [Throw] of a list of completions, or all their values. *)
Fixpoint collect {A : Type} (l : list (Completion A)) : Completion (list A) :=
  match l with
  | [] => Return []
  | Return a :: rest =>
      match collect rest with
      | Return r => Return (a :: r)
      | Throw e => Throw e
      end
  | Throw e :: _ => Throw e
  end.

(** [await Promise.all(started)] on the callbacks' promises: the callbacks
    resume in settle order, and the values come in the order of
    [functions]. *)
Definition await_all (started : list Started) : Js World (list bool) :=
  fun w =>
    (fold_left (resume_at started) (settle_order (length started)) w,
     collect (map (fun s => snd (resume s w)) started)).

(** [functions.map(async (func) => {...})]: each callback runs to its first
    [await] before the next one is called. *)
Definition dispatch (env : gmap string string) : Js World (list Started) :=
  mapM (start env) functions.

(** [warmUp] up to [const invokes = await Promise.all(...)]. *)
Definition warmUp_invokes (env : gmap string string) : Js World (list bool) :=
  run logVerbose "Warm Up Start" then
  let* started := dispatch env in
  await_all started.

(** [invokes.filter(r => !r).length] *)
Definition invoke_errors (invokes : list bool) : nat := length (List.filter negb invokes).

Definition summary (invokes : list bool) : string :=
  "Warm Up Finished with " +:+ pretty (invoke_errors invokes) +:+ " invoke errors".

(** [export const warmUp = async (event, context) => {...}] with
    [process.env] as [env]. *)
Definition warmUp (env : gmap string string) : Js World unit :=
  let* invokes := warmUp_invokes env in
  logVerbose (summary invokes).

End Script.

(** ** Reading the documents *)

Inductive PathStep : Type :=
| Key (k : string)
| Index (i : nat).

(** [v.k] and [v[i]] along a path; [undefined] where there is nothing. *)
Fixpoint at_path (v : JsValue) (path : list PathStep) : JsValue :=
  match path with
  | [] => v
  | Key k :: rest =>
      match v with
      | JObj props => at_path (own k props) rest
      | JArr _ named => at_path (own k named) rest
      | _ => JUndefined
      end
  | Index i :: rest =>
      match v with
      | JArr elems _ => at_path (nth i elems JUndefined) rest
      | _ => JUndefined
      end
  end.

Definition is_null (v : JsValue) : bool :=
  match v with JNull => true | _ => false end.

(** The services on which the role synthesizer throws: [typeof null] is
    ["object"], so a [null] at [service.resources] or at
    [service.resources.Resources] passes the guards and is dereferenced. *)
Definition null_resources (service : Service) : bool :=
  match svc_resources service with
  | JNull => true
  | JObj props => is_null (own "Resources" props)
  | JArr _ named => is_null (own "Resources" named)
  | _ => false
  end.

(** The [WriteFile] calls of a list of calls. *)
Definition written (calls : list Effect) : list (string * string) :=
  flat_map (fun e => match e with WriteFile p t => [(p, t)] | _ => [] end) calls.

(** ** The rendered script: what a run adds to the world

    The definitions below name, as plain values, what the script's
    functions do; the properties relate the two. *)

(** [after w d] is [w] followed by the requests and lines of [d]. *)
Definition after (w d : World) : World :=
  {| requests := requests w ++ requests d;
     stdout := stdout w ++ stdout d;
     stderr := stderr w ++ stderr d |}.

Definition nothing : World := {| requests := []; stdout := []; stderr := [] |}.

(** The value [getConcurrency] returns. *)
Definition resolved_concurrency (func : FunctionTarget) (env : gmap string string)
  : JsNumber :=
  if truthy_string (env !! concurrency_key func)
  then parseInt (interpolate (env !! concurrency_key func))
  else if truthy_string (env !! "WARMUP_CONCURRENCY")
       then parseInt (interpolate (env !! "WARMUP_CONCURRENCY"))
       else parseInt (pretty (cfg_concurrency (fn_config func))).

Definition concurrency_line (func : FunctionTarget) (env : gmap string string) : string :=
  "Warming up function: " +:+ fn_name func +:+ " with concurrency: "
  +:+ number_to_string (resolved_concurrency func env)
  +:+ (if truthy_string (env !! concurrency_key func)
       then " (from function-specific environment variable)"
       else if truthy_string (env !! "WARMUP_CONCURRENCY")
            then " (from global environment variable)"
            else "").

Definition error_line (func : FunctionTarget) : string :=
  "Warm Up Invoke Error: " +:+ fn_name func.

Definition success_line (func : FunctionTarget) : string :=
  "Warm Up Invoke Success: " +:+ fn_name func.

(** The number of requests a callback sends for a concurrency. *)
Definition batch_size (n : JsNumber) : nat :=
  match js_Array n with
  | Return slots => length slots
  | Throw _ => 0
  end.

Definition verbose_lines (verbose : bool) (l : list string) : list string :=
  if verbose then l else [].

(** What a callback adds up to its first [await], and what it is then. *)
Definition start_adds (verbose : bool) (env : gmap string string) (func : FunctionTarget)
  : World :=
  {| requests :=
       repeat (invokeCommand_of func env) (batch_size (resolved_concurrency func env));
     stdout := verbose_lines verbose [concurrency_line func env];
     stderr :=
       match js_Array (resolved_concurrency func env) with
       | Return _ => []
       | Throw e => [(error_line func, e)]
       end |}.

Definition start_value (env : gmap string string) (func : FunctionTarget) (next : nat)
  : Started :=
  match js_Array (resolved_concurrency func env) with
  | Return slots => Awaiting func (seq next (length slots))
  | Throw _ => Returned false
  end.

Fixpoint dispatch_adds (verbose : bool) (env : gmap string string)
    (fs : list FunctionTarget) : World :=
  match fs with
  | [] => nothing
  | f :: rest => after (start_adds verbose env f) (dispatch_adds verbose env rest)
  end.

(** The callbacks of [fs] when the next request is number [next]. *)
Fixpoint started_from (env : gmap string string) (next : nat) (fs : list FunctionTarget)
  : list Started :=
  match fs with
  | [] => []
  | f :: rest =>
      start_value env f next
      :: started_from env (next + batch_size (resolved_concurrency f env)) rest
  end.

(** The value a callback's promise fulfils with. *)
Definition batch_ok (lambda : nat -> option JsError) (s : Started) : bool :=
  match s with
  | Returned r => r
  | Awaiting _ batch =>
      match Promise_all lambda batch with
      | Return _ => true
      | Throw _ => false
      end
  end.

(** What a callback adds when it resumes. *)
Definition resume_adds (verbose : bool) (lambda : nat -> option JsError) (s : Started)
  : World :=
  match s with
  | Returned _ => nothing
  | Awaiting func batch =>
      match Promise_all lambda batch with
      | Return _ =>
          {| requests := []; stdout := verbose_lines verbose [success_line func];
             stderr := [] |}
      | Throw e => {| requests := []; stdout := []; stderr := [(error_line func, e)] |}
      end
  end.

Fixpoint settle_adds (verbose : bool) (lambda : nat -> option JsError)
    (started : list Started) (order : list nat) : World :=
  match order with
  | [] => nothing
  | i :: rest =>
      match started !! i with
      | Some s =>
          after (resume_adds verbose lambda s) (settle_adds verbose lambda started rest)
      | None => settle_adds verbose lambda started rest
      end
  end.

(** What a whole run of [warmUp] adds before its last line, when the next
    request is number [next]. *)
Definition warmUp_adds (functions : list FunctionTarget) (verbose : bool)
    (lambda : nat -> option JsError) (arrival : nat -> nat)
    (env : gmap string string) (next : nat) : World :=
  let started := started_from env next functions in
  after {| requests := []; stdout := verbose_lines verbose ["Warm Up Start"]; stderr := [] |}
    (after (dispatch_adds verbose env functions)
       (settle_adds verbose lambda started (settle_order arrival (length started)))).

(** The resolution order as the specification words it: a variable that is
    set wins, whatever it is set to. *)
Definition stated_concurrency (func : FunctionTarget) (env : gmap string string)
  : JsNumber :=
  match env !! concurrency_key func with
  | Some v => parseInt v
  | None =>
      match env !! "WARMUP_CONCURRENCY" with
      | Some g => parseInt g
      | None => Int (cfg_concurrency (fn_config func))
      end
  end.

(** The context header as the specification words it: the envelope of the
    value whenever there is one. *)
Definition stated_ClientContext (func : FunctionTarget) : option string :=
  match clientContext_of func with
  | Some v => Some (base64 ("{" +:+ dquote +:+ "custom" +:+ dquote +:+ ":" +:+ v +:+ "}"))
  | None => None
  end.

(** A string is non-numeric when no number starts it: after the leading
    white space and an optional sign, its first character is not a decimal
    digit. *)
Definition is_decimal_digit (c : ascii) : bool :=
  let n := nat_of_ascii c in (48 <=? n)%nat && (n <=? 57)%nat.

Fixpoint has_digit (s : string) : bool :=
  match s with
  | EmptyString => false
  | String c rest => is_decimal_digit c || has_digit rest
  end.

Definition non_numeric (s : string) : bool :=
  match snd (strip_sign (trim_start s)) with
  | EmptyString => true
  | String c _ => negb (is_decimal_digit c)
  end.

(** ** Sample inputs *)

(** Modelled from the spec: [capitalize] of [./utils], which is not among
    the sources; the spec speaks of the capitalized warmer name, read here
    as the name with its first letter in upper case.  It only instantiates
    the examples: the properties hold for any helper. *)
Definition capitalize_first (s : string) : string :=
  match s with
  | EmptyString => EmptyString
  | String c rest => String (upper_ascii c) rest
  end.

Definition shop : Service :=
  {| svc_service := JStr "shop"; svc_resources := JUndefined; svc_functions := [] |}.

Definition shop_warmer : WarmerConfig :=
  {| wc_name := "shop-dev-warmup-plugin-default";
     wc_role := JUndefined;
     wc_roleName := JUndefined;
     wc_functions := [ {| fr_name := "shop-dev-hello" |}; {| fr_name := "shop-dev-pay" |} ];
     wc_events := jarray [JObj [("schedule", JStr "rate(5 minutes)")]];
     wc_memorySize := JNum 128;
     wc_timeout := JNum 10;
     wc_environment := [];
     wc_tracing := JUndefined;
     wc_logRetentionInDays := JUndefined;
     wc_tags := JUndefined;
     wc_vpc := JBool false;
     wc_architecture := JUndefined;
     wc_package := JObj [("individually", JBool true)];
     wc_pathHandler := ".warmup/default/index.warmUp" |}.

Definition target (name : string) (concurrency : Z) : FunctionTarget :=
  {| fn_name := name;
     fn_config := {| cfg_concurrency := concurrency; cfg_clientContext := None;
                     cfg_payload := Some "{}"; cfg_alias := None |} |}.

Definition foo : FunctionTarget := target "foo" 5.
Definition bar : FunctionTarget := target "bar" 1.

(** A target whose client context is set to the empty string. *)
Definition silent : FunctionTarget :=
  {| fn_name := "silent";
     fn_config := {| cfg_concurrency := 1; cfg_clientContext := Some "";
                     cfg_payload := Some "{}"; cfg_alias := None |} |}.

Definition no_env : gmap string string := ∅.

Definition env_foo_3 : gmap string string := <["WARMUP_CONCURRENCY_FOO" := "3"]> ∅.

Definition env_foo_many : gmap string string := <["WARMUP_CONCURRENCY_FOO" := "many"]> ∅.

Definition env_foo_0 : gmap string string := <["WARMUP_CONCURRENCY_FOO" := "0"]> ∅.

(** The per-function variable is set, to the empty string. *)
Definition env_foo_empty : gmap string string :=
  <["WARMUP_CONCURRENCY_FOO" := ""]> (<["WARMUP_CONCURRENCY" := "2"]> ∅).

(** A service that answers every request but the first one. *)
Definition first_fails (t : nat) : option JsError :=
  if Nat.eqb t 0 then Some (HostError "boom") else None.

Definition always_answers (t : nat) : option JsError := None.

Definition in_order (i : nat) : nat := i.

Definition host_ok (calls : list Effect) (e : Effect) : option JsError := None.

Definition posix_join (folder file : string) : string := folder +:+ "/" +:+ file.

(** ** Reading objects and call lists *)

(** [k in o], on the own properties of an object. *)
Fixpoint has_own (k : string) (props : list (string * JsValue)) : bool :=
  match props with
  | [] => false
  | (k', _) :: rest => String.eqb k' k || has_own k rest
  end.

Fixpoint has_char (c : ascii) (s : string) : bool :=
  match s with
  | EmptyString => false
  | String a rest => Ascii.eqb a c || has_char c rest
  end.

Definition is_exec (e : Effect) : bool :=
  match e with Exec _ _ => true | _ => false end.

(** The calls [createWarmUpFunctionArtifact] makes, in order, when none of
    them fails. *)
Definition artifact_calls (path_join : string -> string -> string)
    (functions : JsValue) (tracing verbose : bool) (region handlerFolder : string)
  : list Effect :=
  [ Mkdir handlerFolder;
    WriteFile (path_join handlerFolder "index.mjs")
      (render functions tracing verbose region) ]
  ++ (if tracing
      then [ Exec "npm init -y" handlerFolder;
             Exec "npm install --save aws-xray-sdk-core" handlerFolder ]
      else []).

(** Running a list of calls against a host: the calls made, and the error
    of the first that fails. *)
Fixpoint perform_all (host : list Effect -> Effect -> option JsError)
    (plan : list Effect) (calls : list Effect) : list Effect * Completion unit :=
  match plan with
  | [] => (calls, Return tt)
  | e :: rest =>
      match host calls e with
      | None => perform_all host rest (calls ++ [e])
      | Some err => (calls ++ [e], Throw err)
      end
  end.

(** The resources section the role synthesizer leaves, as one value: the
    section and its [Resources] are kept when they are objects and start
    empty otherwise. *)
Definition as_object (v : JsValue) : JsValue :=
  if is_object_type v then v else JObj [].

Definition own_of (v : JsValue) (k : string) : JsValue :=
  match v with
  | JObj props => own k props
  | JArr _ named => own k named
  | _ => JUndefined
  end.

Definition put (v : JsValue) (k : string) (x : JsValue) : JsValue :=
  match v with
  | JObj props => JObj (assign k x props)
  | JArr elems named => JArr elems (assign k x named)
  | _ => v
  end.

Definition resources_after (resources : JsValue) (role : string) (document : JsValue)
  : JsValue :=
  put (as_object resources) "Resources"
    (put (as_object (own_of (as_object resources) "Resources")) role document).


(** A service that already has resources of its own. *)
Definition stocked_shop : Service :=
  {| svc_service := JStr "shop";
     svc_resources :=
       JObj [ ("Resources",
                JObj [("Table", JObj [("Type", JStr "AWS::DynamoDB::Table")])]);
              ("Outputs", JObj []) ];
     svc_functions := [("hello", JObj [("handler", JStr "hello.handler")])] |}.

(** A service whose resources section is [null]. *)
Definition hollow_shop : Service :=
  {| svc_service := JStr "shop"; svc_resources := JNull; svc_functions := [] |}.

(** The backslash, the separator of a Windows host. *)
Definition backslash : ascii := "092"%char.

(** A warmer whose handler path was built on a Windows host. *)
Definition windows_warmer : WarmerConfig :=
  {| wc_name := "shop-dev-warmup-plugin-default";
     wc_role := JUndefined;
     wc_roleName := JUndefined;
     wc_functions := [ {| fr_name := "shop-dev-hello" |} ];
     wc_events := jarray [];
     wc_memorySize := JNum 128;
     wc_timeout := JNum 10;
     wc_environment := [];
     wc_tracing := JBool false;
     wc_logRetentionInDays := JUndefined;
     wc_tags := JUndefined;
     wc_vpc := JUndefined;
     wc_architecture := JUndefined;
     wc_package := JObj [];
     wc_pathHandler :=
       ".warmup" +:+ String backslash ("default" +:+ String backslash "index.warmUp") |}.

(** A host on which files cannot be written. *)
Definition write_fails (calls : list Effect) (e : Effect) : option JsError :=
  match e with
  | WriteFile _ _ => Some (HostError "EACCES")
  | _ => None
  end.

(** A target whose static concurrency is negative. *)
Definition overdrawn : FunctionTarget := target "overdrawn" (-1).

Definition my_func : FunctionTarget := target "my-func" 1.
Definition MY_FUNC : FunctionTarget := target "MY_FUNC" 2.

Definition env_my_func_4 : gmap string string :=
  <["WARMUP_CONCURRENCY_MY_FUNC" := "4"]> ∅.


(** * Properties *)

(** ** Objects *)

Lemma own_assign_eq (k : string) (v : JsValue) (props : list (string * JsValue)) :
  own k (assign k v props) = v.
Proof.
  induction props as [|[k' v'] rest IH]; simpl.
  - now rewrite String.eqb_refl.
  - destruct (String.eqb k' k) eqn:E; simpl; rewrite E; auto.
Qed.

Lemma own_assign_ne (k k' : string) (v : JsValue) (props : list (string * JsValue)) :
  k <> k' -> own k' (assign k v props) = own k' props.
Proof.
  intros Hne. induction props as [|[k0 v0] rest IH]; simpl.
  - destruct (String.eqb k k') eqn:E; auto. apply String.eqb_eq in E. contradiction.
  - destruct (String.eqb k0 k) eqn:E; simpl.
    + apply String.eqb_eq in E. subst k0.
      destruct (String.eqb k k') eqn:E'; auto.
      apply String.eqb_eq in E'. contradiction.
    + destruct (String.eqb k0 k'); auto.
Qed.

Section SynthesizerProperties.

Variable capitalize : string -> string.
Variable path_sep : ascii.

Lemma role_identifier_truthy (warmerName : string) :
  truthy (JStr (role_identifier capitalize warmerName)) = true.
Proof. reflexivity. Qed.

Lemma function_definition_role (warmerName : string) (c : WarmerConfig) :
  truthy (wc_role c) = true ->
  own "role" (function_definition path_sep warmerName c) = wc_role c.
Proof.
  intros Hrole. unfold function_definition, spread_if. rewrite Hrole.
  destruct (truthy (wc_architecture c)), (Nat.eqb (length (wc_environment c)) 0),
    (is_defined (wc_tracing c)), (is_defined (wc_logRetentionInDays c)),
    (truthy (wc_roleName c)); reflexivity.
Qed.

(** What the role synthesizer does on a service it does not throw on. *)
Lemma addWarmUpFunctionRoleToResources_returns (service : Service) (stage : JsValue)
    (warmerName : string) (c : WarmerConfig) :
  null_resources service = false ->
  exists resources Resources,
    addWarmUpFunctionRoleToResources capitalize service stage warmerName c
    = (with_resources resources service,
       with_role (JStr (role_identifier capitalize warmerName)) c, Return tt)
    /\ get_prop resources "Resources" = Return Resources
    /\ get_prop Resources (role_identifier capitalize warmerName)
       = Return (role_document service stage warmerName
                   (with_role (JStr (role_identifier capitalize warmerName)) c)).
Proof.
  destruct service as [sname res fns]. unfold null_resources. simpl.
  intros Hnull. unfold addWarmUpFunctionRoleToResources.
  destruct res as [| |b|n|s|elems named|props]; simpl in *; try discriminate.
  all: try (eexists; eexists; split; [reflexivity|]; split; [reflexivity|]; simpl;
            now rewrite String.eqb_refl).
  - destruct (own "Resources" named) as [| |b|n|s|elems' named'|props'] eqn:HR;
      simpl in *; try discriminate; rewrite ?own_assign_eq; simpl;
      rewrite ?HR; simpl;
      (eexists; eexists; split; [reflexivity|]; split;
       [simpl; rewrite own_assign_eq; reflexivity|]; simpl;
       rewrite ?own_assign_eq; try rewrite String.eqb_refl; reflexivity).
  - destruct (own "Resources" props) as [| |b|n|s|elems' named'|props'] eqn:HR;
      simpl in *; try discriminate; rewrite ?own_assign_eq; simpl;
      rewrite ?HR; simpl;
      (eexists; eexists; split; [reflexivity|]; split;
       [simpl; rewrite own_assign_eq; reflexivity|]; simpl;
       rewrite ?own_assign_eq; try rewrite String.eqb_refl; reflexivity).
Qed.

Lemma at_path_get_prop (v x : JsValue) (k : string) (rest : list PathStep) :
  get_prop v k = Return x -> x <> JUndefined ->
  at_path v (Key k :: rest) = at_path x rest.
Proof.
  destruct v; simpl; intros H Hx; try discriminate; injection H as H; subst;
    congruence.
Qed.

(** The statements of the inline policy of a role document. *)
Lemma role_document_invoke_statement (service : Service) (stage : JsValue)
    (warmerName : string) (c : WarmerConfig) :
  at_path (role_document service stage warmerName c)
    [Key "Properties"; Key "Policies"; Index 0; Key "PolicyDocument";
     Key "Statement"; Index 2]
  = JObj [("Effect", JStr "Allow");
          ("Action", jarray [JStr "lambda:InvokeFunction"]);
          ("Resource", jarray (map invoke_resource (wc_functions c)))].
Proof. reflexivity. Qed.

(** C1.  For every warmer name, once the role synthesizer has run,
    [warmerConfig.role] is ["WarmUpPlugin" + capitalize(name) + "Role"], the
    role document sits in [service.resources.Resources] under that key, and
    the manifest entry that the function definition synthesizer then writes
    carries the same identifier in its [role] field.  (The synthesizer runs
    to its end on every service but those with a [null] resources
    section.) *)
Theorem role_identifier_is_shared (service : Service) (stage : JsValue)
    (warmerName : string) (warmerConfig : WarmerConfig) :
  null_resources service = false ->
  exists service' warmerConfig' Resources entry,
    addWarmUpFunctionRoleToResources capitalize service stage warmerName warmerConfig
    = (service', warmerConfig', Return tt)
    /\ wc_role warmerConfig' = JStr ("WarmUpPlugin" +:+ capitalize warmerName +:+ "Role")
    /\ get_prop (svc_resources service') "Resources" = Return Resources
    /\ get_prop Resources ("WarmUpPlugin" +:+ capitalize warmerName +:+ "Role")
       = Return (role_document service stage warmerName warmerConfig')
    /\ own ("warmUpPlugin" +:+ capitalize warmerName)
         (svc_functions
            (addWarmUpFunctionToService capitalize path_sep service' warmerName
               warmerConfig'))
       = JObj entry
    /\ own "role" entry = JStr ("WarmUpPlugin" +:+ capitalize warmerName +:+ "Role").
Proof.
  intros Hnull.
  destruct (addWarmUpFunctionRoleToResources_returns service stage warmerName
              warmerConfig Hnull) as (resources & Resources & Hrun & Hres & Hdoc).
  exists (with_resources resources service),
    (with_role (JStr (role_identifier capitalize warmerName)) warmerConfig),
    Resources,
    (function_definition path_sep warmerName
       (with_role (JStr (role_identifier capitalize warmerName)) warmerConfig)).
  repeat split; try assumption.
  - unfold addWarmUpFunctionToService, function_key. simpl.
    apply own_assign_eq.
  - now rewrite function_definition_role.
Qed.

(** C2.  For every function list [F] handed to the role synthesizer (the
    non-empty ones among them), the invoke-permission statement of the
    policy it emits has a [Resource] array of [|F|] entries, the [i]-th of
    which is the ARN pattern that ends in [function:<F[i].name>*]. *)
Theorem invoke_permission_lists_functions (service : Service) (stage : JsValue)
    (warmerName : string) (warmerConfig : WarmerConfig) :
  null_resources service = false ->
  exists service' warmerConfig' entries,
    addWarmUpFunctionRoleToResources capitalize service stage warmerName warmerConfig
    = (service', warmerConfig', Return tt)
    /\ at_path (svc_resources service')
         [Key "Resources"; Key ("WarmUpPlugin" +:+ capitalize warmerName +:+ "Role");
          Key "Properties"; Key "Policies"; Index 0; Key "PolicyDocument";
          Key "Statement"; Index 2]
       = JObj [("Effect", JStr "Allow");
               ("Action", jarray [JStr "lambda:InvokeFunction"]);
               ("Resource", jarray entries)]
    /\ length entries = length (wc_functions warmerConfig)
    /\ forall (i : nat) (fn : FunctionRef),
         wc_functions warmerConfig !! i = Some fn ->
         entries !! i
         = Some (JObj [("Fn::Sub",
                        JStr ("arn:${AWS::Partition}:lambda:${AWS::Region}:${AWS::AccountId}:function:"
                              +:+ fr_name fn +:+ "*"))]).
Proof.
  intros Hnull.
  destruct (addWarmUpFunctionRoleToResources_returns service stage warmerName
              warmerConfig Hnull) as (resources & Resources & Hrun & Hres & Hdoc).
  exists (with_resources resources service),
    (with_role (JStr (role_identifier capitalize warmerName)) warmerConfig),
    (map invoke_resource (wc_functions warmerConfig)).
  split; [exact Hrun|]. split; [|split].
  - simpl svc_resources.
    rewrite (at_path_get_prop _ _ _ _ Hres).
    + rewrite (at_path_get_prop _ _ _ _ Hdoc) by discriminate.
      rewrite role_document_invoke_statement. reflexivity.
    + intros ->. discriminate.
  - apply length_map.
  - intros i fn Hi. rewrite list_lookup_fmap, Hi. reflexivity.
Qed.

End SynthesizerProperties.

(** ** Texts *)

Lemma append_cons (a : ascii) (s t : string) : String a s +:+ t = String a (s +:+ t).
Proof. reflexivity. Qed.

Lemma append_assoc (s t u : string) : (s +:+ t) +:+ u = s +:+ (t +:+ u).
Proof.
  induction s as [|a s IH]; [reflexivity|].
  rewrite !append_cons. now rewrite IH.
Qed.

Lemma append_empty_r (s : string) : s +:+ "" = s.
Proof.
  induction s as [|a s IH]; [reflexivity|]. rewrite append_cons. now rewrite IH.
Qed.

Lemma concat_cons (sep x : string) (l : list string) :
  String.concat sep (x :: l)
  = match l with [] => x | _ => x +:+ sep +:+ String.concat sep l end.
Proof. destruct l; reflexivity. Qed.

(** An element of a joined list stands in the joined text. *)
Lemma concat_holds (sep x : string) (l1 l2 : list string) :
  exists before after : string,
    String.concat sep (l1 ++ x :: l2) = before +:+ x +:+ after.
Proof.
  induction l1 as [|y l1 IH].
  - exists "". simpl app. rewrite concat_cons. destruct l2.
    + exists "". now rewrite append_empty_r.
    + eexists. reflexivity.
  - destruct IH as (b & a & IH). change ((y :: l1) ++ x :: l2) with (y :: (l1 ++ x :: l2)).
    rewrite concat_cons. destruct (l1 ++ x :: l2) eqn:E.
    + destruct l1; discriminate.
    + rewrite IH. exists (y +:+ sep +:+ b), a. now rewrite !append_assoc.
Qed.

(** ** RuntimeArtifactSynthesizer *)

Lemma written_app (l1 l2 : list Effect) : written (l1 ++ l2) = written l1 ++ written l2.
Proof. unfold written. apply flat_map_app. Qed.

Ltac written_calls :=
  rewrite !written_app; simpl; rewrite ?app_nil_r; reflexivity.

(** The value of the tracing expression stands in the rendered text. *)
Lemma render_holds_lambdaClient (functions : JsValue) (tracing verbose : bool)
    (region : string) :
  exists before after : string,
    render functions tracing verbose region
    = before +:+ lambdaClient_text tracing +:+ after.
Proof.
  destruct (concat_holds nl (lambdaClient_text tracing)
              ([ "" ] ++ prelude_text
               ++ [ "  region: '" +:+ region +:+ "',";
                    "  requestHandler: new NodeHttpHandler({ connectionTimeout: 1000 }),";
                    "});"; "" ])
              ([ ""; "const functions = " +:+ interpolate (stringify "" functions) +:+ ";";
                 "" ]
               ++ logVerbose_text verbose ++ [ "" ] ++ getConcurrency_text ++ [ "" ]
               ++ warmUp_text)) as (before & after & H).
  exists before, after. rewrite <- H. reflexivity.
Qed.

Section ArtifactProperties.

Variable path_join : string -> string -> string.

(** C7.  The text of the generated script is a function of [functions],
    [tracing], [verbose] and [region] alone: whatever the handler folder,
    the host and the calls made before, a run that gets to write the file
    writes that text, so two runs on the same inputs write the same
    bytes. *)
Theorem artifact_text_is_deterministic (functions : JsValue) (tracing verbose : bool)
    (region : string) :
  exists text : string,
    text = render functions tracing verbose region
    /\ forall (handlerFolder : string) (host : list Effect -> Effect -> option JsError)
         (calls : list Effect),
         written
           (fst (createWarmUpFunctionArtifact path_join host functions tracing verbose
                   region handlerFolder calls))
         = written calls
           ++ match host calls (Mkdir handlerFolder) with
              | None => [(path_join handlerFolder "index.mjs", text)]
              | Some _ => []
              end.
Proof.
  exists (render functions tracing verbose region). split; [reflexivity|].
  intros handlerFolder host calls.
  unfold createWarmUpFunctionArtifact, bind, perform, ret.
  destruct tracing; simpl;
    repeat match goal with
           | |- context [match host ?c ?e with _ => _ end] =>
               destruct (host c e) eqn:?; simpl
           end;
    written_calls.
Qed.

(** C8.  With tracing on, the script imports the tracing wrapper from the
    module ['aws-xray-sdk'], while the dependency step installs the package
    ['aws-xray-sdk-core']: the two names differ. *)
Theorem tracing_import_is_not_the_installed_package (functions : JsValue)
    (verbose : bool) (region handlerFolder : string) :
  exists imported installed : string,
    (exists before after : string,
        render functions true verbose region
        = before +:+ ("import * as AWSXRay from '" +:+ imported +:+ "';") +:+ after)
    /\ (forall (host : list Effect -> Effect -> option JsError) (calls : list Effect),
          snd (createWarmUpFunctionArtifact path_join host functions true verbose
                 region handlerFolder calls) = Return tt ->
          fst (createWarmUpFunctionArtifact path_join host functions true verbose
                 region handlerFolder calls)
          = calls ++ [Mkdir handlerFolder;
                      WriteFile (path_join handlerFolder "index.mjs")
                        (render functions true verbose region);
                      Exec "npm init -y" handlerFolder;
                      Exec ("npm install --save " +:+ installed) handlerFolder])
    /\ (forall calls : list Effect,
          snd (createWarmUpFunctionArtifact path_join (fun _ _ => None) functions true
                 verbose region handlerFolder calls) = Return tt)
    /\ imported = "aws-xray-sdk"
    /\ installed = "aws-xray-sdk-core"
    /\ imported <> installed.
Proof.
  exists "aws-xray-sdk", "aws-xray-sdk-core".
  split; [|split; [|split; [|split; [reflexivity|split; [reflexivity|discriminate]]]]].
  - destruct (render_holds_lambdaClient functions true verbose region)
      as (before & after & H).
    exists before,
      (nl +:+ "const lambdaClient = AWSXRay.captureAWSv3Client(uninstrumentedLambdaClient);"
       +:+ after).
    rewrite H. reflexivity.
  - intros host calls.
    unfold createWarmUpFunctionArtifact, bind, perform, ret.
    repeat match goal with
           | |- context [host ?c ?e] => destruct (host c e); simpl; [discriminate|]
           end.
    intros _. now rewrite <- !app_assoc.
  - intros calls. reflexivity.
Qed.

End ArtifactProperties.

(** ** The rendered script: the functions and what they add *)

Lemma after_nothing (w : World) : after w nothing = w.
Proof. destruct w. unfold after. simpl. now rewrite !app_nil_r. Qed.

Lemma nothing_after (d : World) : after nothing d = d.
Proof. now destruct d. Qed.

Lemma after_after (w d1 d2 : World) : after (after w d1) d2 = after w (after d1 d2).
Proof. unfold after. simpl. now rewrite !app_assoc. Qed.

Lemma collect_returns {A : Type} (l : list A) : collect (map Return l) = Return l.
Proof. induction l as [|a l IH]; simpl; [reflexivity|]. now rewrite IH. Qed.

Section ScriptRuns.

Variable functions : list FunctionTarget.
Variable verbose : bool.
Variable lambda : nat -> option JsError.
Variable arrival : nat -> nat.

Lemma logVerbose_run (str : string) (w : World) :
  logVerbose verbose str w
  = (after w {| requests := []; stdout := verbose_lines verbose [str]; stderr := [] |},
     Return tt).
Proof.
  unfold logVerbose, console_log, ret, after, verbose_lines.
  destruct verbose, w; simpl; now rewrite !app_nil_r.
Qed.

Lemma console_error_run (str : string) (e : JsError) (w : World) :
  console_error str e w
  = (after w {| requests := []; stdout := []; stderr := [(str, e)] |}, Return tt).
Proof. unfold console_error, after. destruct w; simpl. now rewrite !app_nil_r. Qed.

Lemma getConcurrency_run (func : FunctionTarget) (env : gmap string string) (w : World) :
  getConcurrency verbose func env w
  = (after w {| requests := [];
                stdout := verbose_lines verbose [concurrency_line func env];
                stderr := [] |},
     Return (resolved_concurrency func env)).
Proof.
  unfold getConcurrency, concurrency_line, resolved_concurrency, bind.
  destruct (truthy_string (env !! concurrency_key func));
    [|destruct (truthy_string (env !! "WARMUP_CONCURRENCY"))];
    rewrite logVerbose_run; unfold ret; rewrite ?append_empty_r; reflexivity.
Qed.

Lemma send_all_run (invokeCommand : InvokeCommandInput) (slots : list JsValue)
    (w : World) :
  mapM (fun _ => lambdaClient_send invokeCommand) slots w
  = (after w {| requests := repeat invokeCommand (length slots); stdout := [];
                stderr := [] |},
     Return (seq (length (requests w)) (length slots))).
Proof.
  revert w. induction slots as [|x slots IH]; intros w.
  - simpl. unfold ret. now rewrite after_nothing.
  - simpl mapM. unfold bind at 1. unfold lambdaClient_send at 1.
    unfold bind at 1. rewrite IH. unfold ret. simpl.
    rewrite length_app. simpl.
    replace (length (requests w) + 1) with (S (length (requests w))) by lia.
    f_equal. unfold after. simpl. destruct w; simpl. now rewrite <- !app_assoc.
Qed.

Lemma start_run (env : gmap string string) (func : FunctionTarget) (w : World) :
  start verbose env func w
  = (after w (start_adds verbose env func),
     Return (start_value env func (length (requests w)))).
Proof.
  unfold start, bind at 1. rewrite getConcurrency_run.
  unfold try_catch, bind, lift, start_adds, start_value, batch_size.
  destruct (js_Array (resolved_concurrency func env)) as [slots|e].
  - rewrite send_all_run. unfold ret, fill. rewrite length_map. simpl.
    rewrite app_nil_r. f_equal. unfold after. simpl. now rewrite !app_nil_r.
  - rewrite console_error_run. unfold ret. f_equal.
    unfold after. simpl. now rewrite !app_nil_r.
Qed.

Lemma dispatch_run_from (env : gmap string string) (fs : list FunctionTarget) (w : World) :
  mapM (start verbose env) fs w
  = (after w (dispatch_adds verbose env fs),
     Return (started_from env (length (requests w)) fs)).
Proof.
  revert w. induction fs as [|f fs IH]; intros w.
  - simpl. unfold ret. now rewrite after_nothing.
  - simpl mapM. unfold bind at 1. rewrite start_run. unfold bind at 1.
    rewrite IH. unfold ret. simpl. rewrite after_after. f_equal.
    rewrite length_app, repeat_length. reflexivity.
Qed.

Lemma dispatch_run (env : gmap string string) (w : World) :
  dispatch functions verbose env w
  = (after w (dispatch_adds verbose env functions),
     Return (started_from env (length (requests w)) functions)).
Proof. apply dispatch_run_from. Qed.

Lemma resume_run (s : Started) (w : World) :
  resume verbose lambda s w
  = (after w (resume_adds verbose lambda s), Return (batch_ok lambda s)).
Proof.
  destruct s as [r|func batch]; simpl.
  - unfold ret. now rewrite after_nothing.
  - unfold try_catch, bind, lift.
    destruct (Promise_all lambda batch) as [[]|e].
    + rewrite logVerbose_run. reflexivity.
    + rewrite console_error_run. reflexivity.
Qed.

Lemma settle_run (started : list Started) (order : list nat) (w : World) :
  fold_left (resume_at verbose lambda started) order w
  = after w (settle_adds verbose lambda started order).
Proof.
  revert w. induction order as [|i order IH]; intros w; simpl.
  - now rewrite after_nothing.
  - rewrite IH. unfold resume_at. destruct (started !! i) as [s|]; [|reflexivity].
    rewrite resume_run. simpl. apply after_after.
Qed.

Lemma await_all_run (started : list Started) (w : World) :
  await_all verbose lambda arrival started w
  = (after w (settle_adds verbose lambda started (settle_order arrival (length started))),
     Return (map (batch_ok lambda) started)).
Proof.
  unfold await_all. rewrite settle_run. f_equal.
  rewrite <- collect_returns, map_map. f_equal.
  apply map_ext. intros s. now rewrite resume_run.
Qed.

(** The whole of a run: what [warmUp] adds to the world it starts in, and
    that it returns. *)
Lemma warmUp_invokes_run (env : gmap string string) (w : World) :
  warmUp_invokes functions verbose lambda arrival env w
  = (after w (warmUp_adds functions verbose lambda arrival env (length (requests w))),
     Return (map (batch_ok lambda) (started_from env (length (requests w)) functions))).
Proof.
  unfold warmUp_invokes, bind at 1. rewrite logVerbose_run.
  unfold bind. rewrite dispatch_run, await_all_run.
  unfold warmUp_adds. simpl. rewrite !app_nil_r, !after_after. reflexivity.
Qed.

Lemma warmUp_run (env : gmap string string) (w : World) :
  warmUp functions verbose lambda arrival env w
  = (after (after w (warmUp_adds functions verbose lambda arrival env
                        (length (requests w))))
       {| requests := [];
          stdout :=
            verbose_lines verbose
              [summary (map (batch_ok lambda)
                          (started_from env (length (requests w)) functions))];
          stderr := [] |},
     Return tt).
Proof.
  unfold warmUp, bind. rewrite warmUp_invokes_run. now rewrite logVerbose_run.
Qed.

End ScriptRuns.

(** ** Numbers *)

Lemma digit_of_pretty_N_char (m : N) :
  (m < 10)%N -> digit_of 10 (pretty_N_char m) = Some (Z.of_N m).
Proof.
  intros H.
  assert (m = 0 \/ m = 1 \/ m = 2 \/ m = 3 \/ m = 4 \/ m = 5 \/ m = 6 \/ m = 7
          \/ m = 8 \/ m = 9)%N as Hm by lia.
  repeat (destruct Hm as [->|Hm]; [reflexivity|]). now subst.
Qed.

Lemma is_decimal_digit_pretty_N_char (m : N) : is_decimal_digit (pretty_N_char m) = true.
Proof.
  unfold pretty_N_char. destruct m as [|p]; [reflexivity|].
  do 4 (destruct p as [p|p|]; try reflexivity).
Qed.

(** The digits of [x] in front of [s] read as [x] in front of [s]. *)
Lemma digits_value_pretty_N_go (x : N) :
  exists k : Z,
    (0 <= k)%Z
    /\ forall (acc : Z) (s : string),
         digits_value 10 acc (pretty_N_go x s)
         = digits_value 10 (acc * 10 ^ k + Z.of_N x)%Z s.
Proof.
  induction (N.lt_wf_0 x) as [x _ IH].
  destruct (N.eq_dec x 0%N) as [->|Hx].
  - exists 0%Z. split; [lia|]. intros acc s. rewrite pretty_N_go_0. f_equal. lia.
  - destruct (IH (x `div` 10)%N) as (k & Hk & IHk).
    { apply N.div_lt; lia. }
    exists (k + 1)%Z. split; [lia|]. intros acc s.
    rewrite pretty_N_go_step by lia. rewrite IHk. simpl digits_value.
    rewrite digit_of_pretty_N_char by (apply N.mod_lt; lia).
    f_equal. rewrite Z.pow_add_r by lia.
    rewrite N2Z.inj_div, N2Z.inj_mod. change (Z.of_N 10) with 10%Z.
    pose proof (Z.div_mod (Z.of_N x) 10 ltac:(lia)). lia.
Qed.

Lemma pretty_N_go_digits (x : N) (s : string) :
  (0 < x)%N ->
  (forall a r, s = String a r -> is_decimal_digit a = true) ->
  exists (c : ascii) (rest : string),
    pretty_N_go x s = String c rest
    /\ is_decimal_digit c = true
    /\ forall a r, rest = String a r -> is_decimal_digit a = true.
Proof.
  revert s. induction (N.lt_wf_0 x) as [x _ IH]. intros s Hx Hs.
  rewrite pretty_N_go_step by lia.
  destruct (N.eq_dec (x `div` 10)%N 0%N) as [E|E].
  - rewrite E, pretty_N_go_0. eexists _, _. split; [reflexivity|]. split; [|exact Hs].
    apply is_decimal_digit_pretty_N_char.
  - apply IH; [apply N.div_lt; lia|now apply N.neq_0_lt_0|].
    intros a r [= <- <-]. apply is_decimal_digit_pretty_N_char.
Qed.

Lemma is_decimal_digit_range (c : ascii) :
  is_decimal_digit c = true <-> 48 <= nat_of_ascii c <= 57.
Proof.
  unfold is_decimal_digit. rewrite andb_true_iff, !Nat.leb_le. tauto.
Qed.

Lemma decimal_digit_is_no_mark (c : ascii) :
  is_decimal_digit c = true ->
  Ascii.eqb c "-" = false /\ Ascii.eqb c "+" = false
  /\ Ascii.eqb c "x" = false /\ Ascii.eqb c "X" = false.
Proof.
  intros H. repeat split; apply Ascii.eqb_neq; intros ->; vm_compute in H;
    discriminate.
Qed.

Lemma trim_start_not_space (a : ascii) (s : string) :
  33 <= nat_of_ascii a <= 127 -> trim_start (String a s) = String a s.
Proof.
  intros H. simpl.
  assert (is_ascii_space a = false) as ->.
  { unfold is_ascii_space. apply orb_false_iff. split.
    - apply andb_false_iff. right. apply Nat.leb_gt. lia.
    - apply Nat.eqb_neq. lia. }
  destruct s as [|b s]; [reflexivity|].
  assert (is_space2 a b = false) as ->.
  { unfold is_space2. apply andb_false_iff. left. apply Nat.eqb_neq. lia. }
  destruct s as [|c s]; [reflexivity|].
  assert (is_space3 a b c = false) as ->; [|reflexivity].
  unfold is_space3.
  assert (forall n, 128 <= n -> Nat.eqb (nat_of_ascii a) n = false) as Hne.
  { intros n Hn. apply Nat.eqb_neq. lia. }
  rewrite !Hne by lia. reflexivity.
Qed.

Lemma parse_digits_of_digits (c : ascii) (s : string) :
  is_decimal_digit c = true ->
  parse_digits 10 (String c s) = Int (digits_value 10 0 (String c s)).
Proof.
  intros H. apply is_decimal_digit_range in H. unfold parse_digits.
  assert (exists d, digit_of 10 c = Some d) as [d ->]; [|reflexivity].
  unfold digit_of.
  assert ((48 <=? Z.of_nat (nat_of_ascii c))%Z && (Z.of_nat (nat_of_ascii c) <=? 57)%Z = true)
    as ->.
  { apply andb_true_iff. split; apply Z.leb_le; lia. }
  assert ((Z.of_nat (nat_of_ascii c) - 48 <? 10)%Z = true) as ->; [|eauto].
  apply Z.ltb_lt. lia.
Qed.

(** [parseInt] of a string of decimal digits. *)
Lemma parseInt_unsigned (c : ascii) (s : string) :
  is_decimal_digit c = true ->
  (forall x rest, s = String x rest -> is_decimal_digit x = true) ->
  parseInt (String c s) = Int (digits_value 10 0 (String c s)).
Proof.
  intros Hc Hs. pose proof Hc as Hr. apply is_decimal_digit_range in Hr.
  unfold parseInt. rewrite trim_start_not_space by lia.
  assert (strip_sign (String c s) = (1%Z, String c s)) as ->.
  { unfold strip_sign.
    destruct (decimal_digit_is_no_mark c Hc) as (-> & -> & _). reflexivity. }
  assert (strip_hex_prefix (String c s) = (10%Z, String c s)) as ->.
  { unfold strip_hex_prefix. destruct s as [|x rest]; [reflexivity|].
    destruct (decimal_digit_is_no_mark x (Hs x rest eq_refl)) as (_ & _ & -> & ->).
    now rewrite andb_false_r. }
  rewrite parse_digits_of_digits by assumption.
  f_equal. lia.
Qed.

Lemma parseInt_pretty_positive (p : positive) :
  parseInt (pretty (N.pos p)) = Int (Z.pos p)
  /\ exists c rest, pretty (N.pos p) = String c rest /\ is_decimal_digit c = true
       /\ forall a r, rest = String a r -> is_decimal_digit a = true.
Proof.
  change (pretty (N.pos p)) with (pretty_N_go (N.pos p) "").
  destruct (pretty_N_go_digits (N.pos p) "" ltac:(lia) ltac:(discriminate))
    as (c & rest & E & Hc & Hrest).
  split; [|eauto].
  rewrite E, parseInt_unsigned by assumption. rewrite <- E.
  destruct (digits_value_pretty_N_go (N.pos p)) as (k & _ & Hk).
  rewrite Hk. simpl. reflexivity.
Qed.

(** [parseInt] reads back the decimal text of an integer: the static
    concurrency goes through [parseInt] unchanged. *)
Lemma parseInt_pretty (n : Z) : parseInt (pretty n) = Int n.
Proof.
  destruct n as [|p|p].
  - reflexivity.
  - apply parseInt_pretty_positive.
  - destruct (parseInt_pretty_positive p) as (Hp & c & rest & E & Hc & Hrest).
    change (pretty (Z.neg p)) with ("-" +:+ pretty (N.pos p)).
    rewrite E in *. rewrite append_cons. change ("" +:+ String c rest) with (String c rest).
    revert Hp. unfold parseInt.
    rewrite (trim_start_not_space "-") by (change (nat_of_ascii "-") with 45; lia).
    apply is_decimal_digit_range in Hc as Hr.
    rewrite trim_start_not_space by lia.
    change (strip_sign (String "-" (String c rest))) with ((-1)%Z, String c rest).
    assert (strip_sign (String c rest) = (1%Z, String c rest)) as ->.
    { unfold strip_sign.
      destruct (decimal_digit_is_no_mark c Hc) as (-> & -> & _). reflexivity. }
    destruct (strip_hex_prefix (String c rest)) as [radix s'].
    destruct (parse_digits radix s'); [discriminate|].
    intros [= H]. f_equal. lia.
Qed.

Lemma digit_of_not_decimal (c : ascii) :
  is_decimal_digit c = false -> digit_of 10 c = None.
Proof.
  intros H. unfold is_decimal_digit in H. unfold digit_of.
  set (n := Z.of_nat (nat_of_ascii c)).
  assert (n = Z.of_nat (nat_of_ascii c)) as Hn by reflexivity. clearbody n.
  destruct ((48 <=? n)%Z && (n <=? 57)%Z) eqn:E1.
  { apply andb_true_iff in E1 as [A B]. apply Z.leb_le in A, B.
    apply andb_false_iff in H as [H|H]; apply Nat.leb_gt in H; lia. }
  destruct ((97 <=? n)%Z && (n <=? 122)%Z) eqn:E2.
  { apply andb_true_iff in E2 as [A B]. apply Z.leb_le in A, B.
    assert ((n - 87 <? 10)%Z = false) as ->; [apply Z.ltb_ge; lia|reflexivity]. }
  destruct ((65 <=? n)%Z && (n <=? 90)%Z) eqn:E3; [|reflexivity].
  apply andb_true_iff in E3 as [A B]. apply Z.leb_le in A, B.
  assert ((n - 55 <? 10)%Z = false) as ->; [apply Z.ltb_ge; lia|reflexivity].
Qed.

(** A non-numeric string parses to [NaN]. *)
Lemma parseInt_non_numeric (s : string) : non_numeric s = true -> parseInt s = NaN.
Proof.
  unfold non_numeric, parseInt.
  destruct (strip_sign (trim_start s)) as [sign s1]. simpl.
  destruct s1 as [|c rest]; [reflexivity|]. intros H. apply negb_true_iff in H.
  assert (strip_hex_prefix (String c rest) = (10%Z, String c rest)) as ->.
  { unfold strip_hex_prefix. destruct rest as [|x rest]; [reflexivity|].
    assert (Ascii.eqb c "0" = false) as ->; [|reflexivity].
    apply Ascii.eqb_neq. intros ->. discriminate. }
  unfold parse_digits. now rewrite digit_of_not_decimal.
Qed.

(** A string without any digit is non-numeric. *)
Lemma trim_start_has_no_digit (n : nat) (s : string) :
  String.length s <= n -> has_digit s = false -> has_digit (trim_start s) = false.
Proof.
  revert s. induction n as [|n IH]; intros s Hlen Hs.
  - destruct s; [reflexivity|simpl in Hlen; lia].
  - destruct s as [|a s1]; [reflexivity|]. simpl in Hlen.
    pose proof Hs as Hs0. simpl in Hs. apply orb_false_iff in Hs as [_ Hs1].
    simpl trim_start. destruct (is_ascii_space a); [apply IH; [lia|exact Hs1]|].
    destruct s1 as [|b s2]; [exact Hs0|]. simpl in Hlen.
    simpl in Hs1. apply orb_false_iff in Hs1 as [_ Hs2].
    destruct (is_space2 a b); [apply IH; [lia|exact Hs2]|].
    destruct s2 as [|c s3]; [exact Hs0|]. simpl in Hlen.
    simpl in Hs2. apply orb_false_iff in Hs2 as [_ Hs3].
    destruct (is_space3 a b c); [apply IH; [lia|exact Hs3]|exact Hs0].
Qed.

Lemma no_digit_is_non_numeric (s : string) : has_digit s = false -> non_numeric s = true.
Proof.
  intros Hs. apply (trim_start_has_no_digit (String.length s) s (le_n _)) in Hs.
  unfold non_numeric, strip_sign. destruct (trim_start s) as [|c rest]; [reflexivity|].
  simpl in Hs. apply orb_false_iff in Hs as [Hc Hrest].
  destruct (Ascii.eqb c "-"); [|destruct (Ascii.eqb c "+")]; simpl.
  - destruct rest as [|x r]; [reflexivity|]. simpl in Hrest.
    apply orb_false_iff in Hrest as [-> _]. reflexivity.
  - destruct rest as [|x r]; [reflexivity|]. simpl in Hrest.
    apply orb_false_iff in Hrest as [-> _]. reflexivity.
  - now rewrite Hc.
Qed.

(** ** The rendered script: requests, lines and values of a run *)

Lemma requests_dispatch_adds (verbose : bool) (env : gmap string string)
    (fs : list FunctionTarget) :
  requests (dispatch_adds verbose env fs)
  = flat_map (fun f => repeat (invokeCommand_of f env)
                         (batch_size (resolved_concurrency f env))) fs.
Proof. induction fs as [|f fs IH]; simpl; [reflexivity|]. now rewrite IH. Qed.

Lemma requests_resume_adds (verbose : bool) (lambda : nat -> option JsError)
    (s : Started) :
  requests (resume_adds verbose lambda s) = [].
Proof.
  destruct s as [r|func batch]; simpl; [reflexivity|].
  now destruct (Promise_all lambda batch).
Qed.

Lemma requests_settle_adds (verbose : bool) (lambda : nat -> option JsError)
    (started : list Started) (order : list nat) :
  requests (settle_adds verbose lambda started order) = [].
Proof.
  induction order as [|i order IH]; simpl; [reflexivity|].
  destruct (started !! i); [|exact IH]. simpl.
  now rewrite requests_resume_adds, IH.
Qed.

Lemma requests_warmUp_adds (functions : list FunctionTarget) (verbose : bool)
    (lambda : nat -> option JsError) (arrival : nat -> nat)
    (env : gmap string string) (next : nat) :
  requests (warmUp_adds functions verbose lambda arrival env next)
  = flat_map (fun f => repeat (invokeCommand_of f env)
                         (batch_size (resolved_concurrency f env))) functions.
Proof.
  unfold warmUp_adds. simpl.
  now rewrite requests_settle_adds, app_nil_r, requests_dispatch_adds.
Qed.

(** A script rendered with [verbose = false] writes nothing to the standard
    output. *)
Lemma stdout_dispatch_adds_quiet (env : gmap string string) (fs : list FunctionTarget) :
  stdout (dispatch_adds false env fs) = [].
Proof. induction fs as [|f fs IH]; simpl; [reflexivity|]. exact IH. Qed.

Lemma stdout_settle_adds_quiet (lambda : nat -> option JsError)
    (started : list Started) (order : list nat) :
  stdout (settle_adds false lambda started order) = [].
Proof.
  induction order as [|i order IH]; simpl; [reflexivity|].
  destruct (started !! i) as [[r|func batch]|]; simpl; try exact IH.
  destruct (Promise_all lambda batch); simpl; exact IH.
Qed.

(** The error channel does not depend on [verbose]. *)
Lemma stderr_dispatch_adds_verbose (v v' : bool) (env : gmap string string)
    (fs : list FunctionTarget) :
  stderr (dispatch_adds v env fs) = stderr (dispatch_adds v' env fs).
Proof. induction fs as [|f fs IH]; simpl; [reflexivity|]. now rewrite IH. Qed.

Lemma stderr_settle_adds_verbose (v v' : bool) (lambda : nat -> option JsError)
    (started : list Started) (order : list nat) :
  stderr (settle_adds v lambda started order)
  = stderr (settle_adds v' lambda started order).
Proof.
  induction order as [|i order IH]; simpl; [reflexivity|].
  destruct (started !! i) as [[r|func batch]|]; simpl; try exact IH.
  destruct (Promise_all lambda batch); simpl; now rewrite IH.
Qed.

Lemma started_from_length (env : gmap string string) (next : nat)
    (fs : list FunctionTarget) :
  length (started_from env next fs) = length fs.
Proof.
  revert next. induction fs as [|f fs IH]; intros next; simpl; [reflexivity|].
  now rewrite IH.
Qed.

Lemma started_from_lookup (env : gmap string string) (fs : list FunctionTarget)
    (next i : nat) (func : FunctionTarget) :
  fs !! i = Some func ->
  exists n : nat, started_from env next fs !! i = Some (start_value env func n).
Proof.
  revert next i. induction fs as [|f fs IH]; intros next i H; [discriminate|].
  destruct i as [|i]; simpl in *.
  - injection H as ->. eauto.
  - eapply IH. exact H.
Qed.

(** The settle order names every callback once. *)
Lemma insert_by_arrival_perm (arrival : nat -> nat) (i : nat) (l : list nat) :
  Permutation (insert_by_arrival arrival i l) (i :: l).
Proof.
  induction l as [|j l IH]; simpl; [reflexivity|].
  destruct (arrival i <=? arrival j)%nat; [reflexivity|].
  rewrite IH. apply perm_swap.
Qed.

Lemma sort_by_arrival_perm (arrival : nat -> nat) (l : list nat) :
  Permutation (sort_by_arrival arrival l) l.
Proof.
  induction l as [|i l IH]; simpl; [reflexivity|].
  rewrite insert_by_arrival_perm. now rewrite IH.
Qed.

Lemma settle_order_complete (arrival : nat -> nat) (n i : nat) :
  i < n -> In i (settle_order arrival n).
Proof.
  intros H. unfold settle_order.
  apply (Permutation_in i (Permutation_sym (sort_by_arrival_perm arrival (seq 0 n)))).
  apply in_seq. lia.
Qed.

Lemma stderr_settle_adds_holds (verbose : bool) (lambda : nat -> option JsError)
    (started : list Started) (order : list nat) (i : nat) (s : Started)
    (x : string * JsError) :
  In i order -> started !! i = Some s ->
  In x (stderr (resume_adds verbose lambda s)) ->
  In x (stderr (settle_adds verbose lambda started order)).
Proof.
  intros Hi Hs Hx. induction order as [|j order IH]; [destruct Hi|].
  simpl. destruct Hi as [->|Hi].
  - rewrite Hs. simpl. apply in_or_app. now left.
  - destruct (started !! j); [|now apply IH].
    simpl. apply in_or_app. right. now apply IH.
Qed.

(** [Promise.all] over a batch. *)
Lemma Promise_all_throws (lambda : nat -> option JsError) (batch : list nat)
    (t : nat) (e : JsError) :
  In t batch -> lambda t = Some e ->
  exists (t' : nat) (e' : JsError),
    In t' batch /\ lambda t' = Some e' /\ Promise_all lambda batch = Throw e'.
Proof.
  induction batch as [|a batch IH]; intros Hin He; [destruct Hin|]. simpl.
  destruct (lambda a) as [ea|] eqn:Ea.
  - exists a, ea. split; [now left|]. split; [assumption|reflexivity].
  - destruct Hin as [->|Hin]; [congruence|].
    destruct (IH Hin He) as (t' & e' & H1 & H2 & H3).
    exists t', e'. split; [now right|]. split; assumption.
Qed.

Lemma Promise_all_ext (lambda lambda' : nat -> option JsError) (batch : list nat) :
  (forall t, In t batch -> lambda' t = lambda t) ->
  Promise_all lambda' batch = Promise_all lambda batch.
Proof.
  induction batch as [|a batch IH]; intros H; simpl; [reflexivity|].
  rewrite (H a) by now left. destruct (lambda a); [reflexivity|].
  apply IH. intros t Ht. apply H. now right.
Qed.

Lemma Promise_all_empty (lambda : nat -> option JsError) :
  Promise_all lambda [] = Return tt.
Proof. reflexivity. Qed.

(** The requests of two callbacks are distinct requests. *)
Lemma start_value_below (env : gmap string string) (f func : FunctionTarget)
    (next : nat) (batch : list nat) (t : nat) :
  start_value env f next = Awaiting func batch -> In t batch ->
  next <= t < next + batch_size (resolved_concurrency f env).
Proof.
  unfold start_value, batch_size.
  destruct (js_Array (resolved_concurrency f env)); [|discriminate].
  intros [= <- <-] Ht. apply in_seq in Ht. lia.
Qed.

Lemma started_from_above (env : gmap string string) (fs : list FunctionTarget)
    (next i : nat) (func : FunctionTarget) (batch : list nat) (t : nat) :
  started_from env next fs !! i = Some (Awaiting func batch) -> In t batch ->
  next <= t.
Proof.
  revert next i. induction fs as [|f fs IH]; intros next i H Ht; [discriminate|].
  destruct i as [|i]; simpl in H.
  - injection H as H. apply (start_value_below _ _ _ _ _ _ H) in Ht. lia.
  - apply (IH _ _ H) in Ht. lia.
Qed.

Lemma started_from_apart (env : gmap string string) (fs : list FunctionTarget)
    (next i j : nat) (fi fj : FunctionTarget) (bi bj : list nat) (t : nat) :
  i < j ->
  started_from env next fs !! i = Some (Awaiting fi bi) ->
  started_from env next fs !! j = Some (Awaiting fj bj) ->
  In t bi -> In t bj -> False.
Proof.
  revert next i j. induction fs as [|f fs IH]; intros next i j Hij Hi Hj Hti Htj;
    [discriminate|].
  destruct j as [|j]; [lia|]. simpl in Hj.
  destruct i as [|i]; simpl in Hi.
  - injection Hi as Hi. apply (start_value_below _ _ _ _ _ _ Hi) in Hti.
    apply (started_from_above _ _ _ _ _ _ _ Hj) in Htj. lia.
  - apply (IH _ i j ltac:(lia) Hi Hj Hti Htj).
Qed.

Lemma started_from_disjoint (env : gmap string string) (fs : list FunctionTarget)
    (next i j : nat) (fi fj : FunctionTarget) (bi bj : list nat) (t : nat) :
  i <> j ->
  started_from env next fs !! i = Some (Awaiting fi bi) ->
  started_from env next fs !! j = Some (Awaiting fj bj) ->
  In t bi -> In t bj -> False.
Proof.
  intros Hij Hi Hj Hti Htj.
  destruct (Nat.lt_ge_cases i j) as [H|H].
  - exact (started_from_apart _ _ _ _ _ _ _ _ _ _ H Hi Hj Hti Htj).
  - assert (j < i) as H' by lia.
    exact (started_from_apart _ _ _ _ _ _ _ _ _ _ H' Hj Hi Htj Hti).
Qed.

(** Lists without one element. *)
Lemma flat_map_delete {A B : Type} (f : A -> list B) (l : list A) (i : nat) (x : A) :
  l !! i = Some x -> f x = [] -> flat_map f (delete i l) = flat_map f l.
Proof.
  revert i. induction l as [|a l IH]; intros i H Hx; [discriminate|].
  destruct i as [|i]; simpl in *.
  - injection H as ->. now rewrite Hx.
  - now rewrite (IH i H Hx).
Qed.

Lemma invoke_errors_delete (invokes : list bool) (i : nat) :
  invokes !! i = Some true -> invoke_errors (delete i invokes) = invoke_errors invokes.
Proof.
  unfold invoke_errors. revert i. induction invokes as [|b l IH]; intros i H;
    [discriminate|].
  destruct i as [|i]; simpl in *.
  - now injection H as ->.
  - destruct b; simpl; now rewrite (IH i H).
Qed.

Lemma string_truthy_nonempty (v : string) : v <> "" -> string_truthy v = true.
Proof.
  intros H. unfold string_truthy. apply negb_true_iff. now apply String.eqb_neq.
Qed.

(** ** The rendered script: concurrency, requests and failures *)

Lemma batch_size_in_range (n : Z) :
  (0 <= n <= 4294967295)%Z -> batch_size (Int n) = Z.to_nat n.
Proof.
  intros H. unfold batch_size, js_Array.
  assert ((0 <=? n)%Z && (n <=? 4294967295)%Z = true) as ->.
  { apply andb_true_iff. split; apply Z.leb_le; lia. }
  apply repeat_length.
Qed.

Lemma stderr_dispatch_adds_holds (verbose : bool) (env : gmap string string)
    (fs : list FunctionTarget) (i : nat) (func : FunctionTarget) (x : string * JsError) :
  fs !! i = Some func -> In x (stderr (start_adds verbose env func)) ->
  In x (stderr (dispatch_adds verbose env fs)).
Proof.
  revert i. induction fs as [|f fs IH]; intros i H Hx; [discriminate|].
  simpl. apply in_or_app. destruct i as [|i]; simpl in H.
  - injection H as ->. now left.
  - right. exact (IH i H Hx).
Qed.

Lemma started_from_names (env : gmap string string) (fs : list FunctionTarget)
    (next i : nat) (func : FunctionTarget) (batch : list nat) :
  started_from env next fs !! i = Some (Awaiting func batch) -> fs !! i = Some func.
Proof.
  revert next i. induction fs as [|f fs IH]; intros next i H; [discriminate|].
  destruct i as [|i]; simpl in *.
  - unfold start_value in H.
    destruct (js_Array (resolved_concurrency f env)); [|discriminate].
    now injection H as -> _.
  - exact (IH _ _ H).
Qed.

Section ScriptClaims.

Variable verbose : bool.
Variable lambda : nat -> option JsError.
Variable arrival : nat -> nat.

Lemma getConcurrency_value (func : FunctionTarget) (env : gmap string string) (w : World) :
  snd (getConcurrency verbose func env w) = Return (resolved_concurrency func env).
Proof. now rewrite getConcurrency_run. Qed.

Lemma start_requests (func : FunctionTarget) (env : gmap string string) (w : World) :
  requests (fst (start verbose env func w))
  = requests w
    ++ repeat (invokeCommand_of func env) (batch_size (resolved_concurrency func env)).
Proof. now rewrite start_run. Qed.

Lemma warmUp_requests (functions : list FunctionTarget) (env : gmap string string)
    (w : World) :
  requests (fst (warmUp functions verbose lambda arrival env w))
  = requests w
    ++ flat_map (fun f => repeat (invokeCommand_of f env)
                            (batch_size (resolved_concurrency f env))) functions.
Proof.
  rewrite warmUp_run. cbn [fst after requests].
  now rewrite app_nil_r, requests_warmUp_adds.
Qed.

Lemma dispatch_value (functions : list FunctionTarget) (env : gmap string string)
    (w : World) (started : list Started) :
  snd (dispatch functions verbose env w) = Return started ->
  started = started_from env (length (requests w)) functions.
Proof. rewrite dispatch_run. simpl. now intros [= <-]. Qed.

(** A request of a batch that fails is logged under the function's name. *)
Lemma failure_is_logged (functions : list FunctionTarget) (env : gmap string string)
    (next i : nat) (func : FunctionTarget) (batch : list nat) (t : nat) (e : JsError) :
  started_from env next functions !! i = Some (Awaiting func batch) ->
  In t batch -> lambda t = Some e ->
  exists (t' : nat) (e' : JsError),
    In t' batch /\ lambda t' = Some e'
    /\ In (error_line func, e')
         (stderr (warmUp_adds functions verbose lambda arrival env next)).
Proof.
  intros Hi Ht He.
  destruct (Promise_all_throws lambda batch t e Ht He) as (t' & e' & H1 & H2 & H3).
  exists t', e'. split; [assumption|]. split; [assumption|].
  unfold warmUp_adds. simpl. apply in_or_app. right.
  eapply stderr_settle_adds_holds; [|exact Hi|].
  - apply settle_order_complete. apply lookup_lt_Some in Hi. exact Hi.
  - simpl. rewrite H3. now left.
Qed.

(** C3, as the code has it.  A per-function variable
    [WARMUP_CONCURRENCY_<NAME>] (the name upper-cased, hyphens replaced by
    underscores) that is set to a non-empty value wins over the global
    [WARMUP_CONCURRENCY], which, set to a non-empty value, wins over the
    static [config.concurrency]; a variable set to the empty string counts
    as unset.  A callback sends as many requests as the resolved
    concurrency, when that is an integer from 0 to 2^32 - 1 (the lengths
    [Array] takes):
    [WARMUP_CONCURRENCY_FOO=3] gives 3 requests for ["foo"] whatever the
    static value, [WARMUP_CONCURRENCY=2] alone gives 2, and with no override
    a static concurrency of [N] gives exactly [N] requests before the run
    returns. *)
Theorem concurrency_precedence (func : FunctionTarget) (env : gmap string string)
    (w : World) :
  let key := "WARMUP_CONCURRENCY_" +:+ replace_hyphens (toUpperCase (fn_name func)) in
  (forall v : string,
      env !! key = Some v -> v <> "" ->
      snd (getConcurrency verbose func env w) = Return (parseInt v))
  /\ (forall g : string,
        truthy_string (env !! key) = false ->
        env !! "WARMUP_CONCURRENCY" = Some g -> g <> "" ->
        snd (getConcurrency verbose func env w) = Return (parseInt g))
  /\ (truthy_string (env !! key) = false ->
      truthy_string (env !! "WARMUP_CONCURRENCY") = false ->
      (Z.abs (cfg_concurrency (fn_config func)) <= 2 ^ 53)%Z ->
      snd (getConcurrency verbose func env w)
      = Return (Int (cfg_concurrency (fn_config func))))
  /\ (forall n : Z,
        snd (getConcurrency verbose func env w) = Return (Int n) ->
        (0 <= n <= 4294967295)%Z ->
        requests (fst (start verbose env func w))
        = requests w ++ repeat (invokeCommand_of func env) (Z.to_nat n))
  /\ (fn_name func = "foo" -> env !! "WARMUP_CONCURRENCY_FOO" = Some "3" ->
      requests (fst (start verbose env func w))
      = requests w ++ repeat (invokeCommand_of func env) 3)
  /\ (truthy_string (env !! key) = false -> env !! "WARMUP_CONCURRENCY" = Some "2" ->
      requests (fst (start verbose env func w))
      = requests w ++ repeat (invokeCommand_of func env) 2)
  /\ (truthy_string (env !! key) = false ->
      truthy_string (env !! "WARMUP_CONCURRENCY") = false ->
      (0 <= cfg_concurrency (fn_config func) <= 4294967295)%Z ->
      exists w' : World,
        warmUp [func] verbose lambda arrival env w = (w', Return tt)
        /\ requests w'
           = requests w
             ++ repeat (invokeCommand_of func env)
                  (Z.to_nat (cfg_concurrency (fn_config func)))).
Proof.
  intros key. change key with (concurrency_key func). clear key.
  assert (forall v, env !! concurrency_key func = Some v -> v <> "" ->
            resolved_concurrency func env = parseInt v) as Hown.
  { intros v Hv Hne. unfold resolved_concurrency. rewrite Hv. simpl.
    now rewrite string_truthy_nonempty. }
  assert (forall g, truthy_string (env !! concurrency_key func) = false ->
            env !! "WARMUP_CONCURRENCY" = Some g -> g <> "" ->
            resolved_concurrency func env = parseInt g) as Hglobal.
  { intros g Hf Hg Hne. unfold resolved_concurrency. rewrite Hf, Hg. simpl.
    now rewrite string_truthy_nonempty. }
  assert (truthy_string (env !! concurrency_key func) = false ->
          truthy_string (env !! "WARMUP_CONCURRENCY") = false ->
          resolved_concurrency func env = Int (cfg_concurrency (fn_config func)))
    as Hstatic.
  { intros Hf Hg. unfold resolved_concurrency. rewrite Hf, Hg. apply parseInt_pretty. }
  split; [|split; [|split; [|split; [|split; [|split]]]]].
  - intros v Hv Hne. now rewrite getConcurrency_value, (Hown v).
  - intros g Hf Hg Hne. now rewrite getConcurrency_value, (Hglobal g).
  - intros Hf Hg _. now rewrite getConcurrency_value, Hstatic.
  - intros n Hn Hrange. rewrite getConcurrency_value in Hn. injection Hn as Hn.
    now rewrite start_requests, Hn, batch_size_in_range.
  - intros Hname Hv.
    assert (concurrency_key func = "WARMUP_CONCURRENCY_FOO") as Hkey.
    { unfold concurrency_key. now rewrite Hname. }
    rewrite <- Hkey in Hv.
    rewrite start_requests, (Hown "3" Hv) by discriminate. reflexivity.
  - intros Hf Hg. rewrite start_requests, (Hglobal "2" Hf Hg) by discriminate.
    reflexivity.
  - intros Hf Hg Hrange.
    exists (fst (warmUp [func] verbose lambda arrival env w)). split.
    + now rewrite warmUp_run.
    + rewrite warmUp_requests. simpl.
      now rewrite app_nil_r, (Hstatic Hf Hg), batch_size_in_range.
Qed.

(** C4.  A function whose resolved override is a non-numeric string gets
    [NaN] for its concurrency, used as it is: its callback sends no request
    (the run sends what it would send without the function), and the run
    returns.  ([Array(NaN)] throws inside the [try]; the callback logs the
    [RangeError] and yields [false].) *)
Theorem non_numeric_override_sends_nothing (functions : list FunctionTarget)
    (env : gmap string string) (w : World) (i : nat) (func : FunctionTarget)
    (v : string) :
  functions !! i = Some func ->
  env !! concurrency_key func = Some v
  \/ (truthy_string (env !! concurrency_key func) = false
      /\ env !! "WARMUP_CONCURRENCY" = Some v) ->
  v <> "" ->
  non_numeric v = true ->
  parseInt v = NaN
  /\ (forall w' : World, snd (getConcurrency verbose func env w') = Return NaN)
  /\ (forall w' : World, requests (fst (start verbose env func w')) = requests w')
  /\ requests (fst (warmUp functions verbose lambda arrival env w))
     = requests (fst (warmUp (delete i functions) verbose lambda arrival env w))
  /\ exists (w1 : World) (invokes : list bool),
       warmUp_invokes functions verbose lambda arrival env w = (w1, Return invokes)
       /\ invokes !! i = Some false
       /\ In ("Warm Up Invoke Error: " +:+ fn_name func, RangeError "Invalid array length")
            (stderr w1)
       /\ exists w2 : World,
            warmUp functions verbose lambda arrival env w = (w2, Return tt).
Proof.
  intros Hi Hset Hne Hnon.
  pose proof (parseInt_non_numeric v Hnon) as Hnan.
  assert (resolved_concurrency func env = NaN) as Hres.
  { unfold resolved_concurrency. destruct Hset as [Hv|[Hf Hg]].
    - rewrite Hv. simpl. now rewrite string_truthy_nonempty.
    - rewrite Hf, Hg. simpl. now rewrite string_truthy_nonempty. }
  split; [exact Hnan|]. split; [|split; [|split]].
  - intros w'. now rewrite getConcurrency_value, Hres.
  - intros w'. rewrite start_requests, Hres. simpl. apply app_nil_r.
  - rewrite !warmUp_requests. f_equal. symmetry.
    apply (flat_map_delete _ _ _ _ Hi). now rewrite Hres.
  - rewrite warmUp_run. rewrite warmUp_invokes_run. eexists _, _.
    split; [reflexivity|]. split; [|split; [|eauto]].
    + rewrite list_lookup_fmap.
      destruct (started_from_lookup env functions (length (requests w)) i func Hi)
        as (n & ->).
      unfold start_value. now rewrite Hres.
    + simpl. apply in_or_app. right. apply in_or_app. left.
      apply (stderr_dispatch_adds_holds _ _ _ _ _ _ Hi).
      unfold start_adds. simpl. rewrite Hres. simpl. now left.
Qed.

(** C10.  A function whose concurrency resolves to 0 (an override ["0"]
    for one) gets no request, and its callback yields [true]: it adds
    nothing to the count of invoke errors. *)
Theorem zero_concurrency_counts_as_success (functions : list FunctionTarget)
    (env : gmap string string) (w : World) (i : nat) (func : FunctionTarget) :
  functions !! i = Some func ->
  snd (getConcurrency verbose func env w) = Return (Int 0) ->
  (forall w' : World, requests (fst (start verbose env func w')) = requests w')
  /\ requests (fst (warmUp functions verbose lambda arrival env w))
     = requests (fst (warmUp (delete i functions) verbose lambda arrival env w))
  /\ (exists (w1 : World) (invokes : list bool),
         warmUp_invokes functions verbose lambda arrival env w = (w1, Return invokes)
         /\ invokes !! i = Some true
         /\ invoke_errors invokes = invoke_errors (delete i invokes))
  /\ (forall env' : gmap string string,
         env' !! concurrency_key func = Some "0" ->
         snd (getConcurrency verbose func env' w) = Return (Int 0)).
Proof.
  intros Hi Hzero. rewrite getConcurrency_value in Hzero. injection Hzero as Hres.
  split; [|split; [|split]].
  - intros w'. rewrite start_requests, Hres. simpl. apply app_nil_r.
  - rewrite !warmUp_requests. f_equal. symmetry.
    apply (flat_map_delete _ _ _ _ Hi). now rewrite Hres.
  - rewrite warmUp_invokes_run. eexists _, _. split; [reflexivity|].
    assert (map (batch_ok lambda) (started_from env (length (requests w)) functions) !! i
            = Some true) as Htrue.
    { rewrite list_lookup_fmap.
      destruct (started_from_lookup env functions (length (requests w)) i func Hi)
        as (n & ->).
      unfold start_value. now rewrite Hres. }
    split; [exact Htrue|]. symmetry. now apply invoke_errors_delete.
  - intros env' Hv. rewrite getConcurrency_value. unfold resolved_concurrency.
    now rewrite Hv.
Qed.

(** C5, as the code has it.  When a request of one function's batch fails,
    the error is written to the error channel under the function's name and
    the function yields [false]; what any other function yields does not
    depend on the answers to this batch; the entry point returns; and the
    number of [false] results goes to [logVerbose], which prints it when the
    script was rendered with [verbose = true]. *)
Theorem invocation_failure_is_isolated (functions : list FunctionTarget)
    (env : gmap string string) (w : World) (started : list Started) (i : nat)
    (func : FunctionTarget) (batch : list nat) (t : nat) (e : JsError) :
  snd (dispatch functions verbose env w) = Return started ->
  started !! i = Some (Awaiting func batch) ->
  In t batch ->
  lambda t = Some e ->
  exists (w1 : World) (invokes : list bool),
    warmUp_invokes functions verbose lambda arrival env w = (w1, Return invokes)
    /\ functions !! i = Some func
    /\ (exists (t' : nat) (e' : JsError),
           In t' batch /\ lambda t' = Some e'
           /\ In ("Warm Up Invoke Error: " +:+ fn_name func, e') (stderr w1))
    /\ invokes !! i = Some false
    /\ (forall (lambda' : nat -> option JsError) (j : nat),
           j <> i ->
           (forall t' : nat, ~ In t' batch -> lambda' t' = lambda t') ->
           exists (w1' : World) (invokes' : list bool),
             warmUp_invokes functions verbose lambda' arrival env w
             = (w1', Return invokes')
             /\ invokes' !! j = invokes !! j)
    /\ warmUp functions verbose lambda arrival env w
       = (fst (logVerbose verbose
                 ("Warm Up Finished with "
                  +:+ pretty (length (List.filter negb invokes))
                  +:+ " invoke errors") w1),
          Return tt)
    /\ (verbose = true ->
        stdout (fst (warmUp functions verbose lambda arrival env w))
        = stdout w1
          ++ ["Warm Up Finished with "
              +:+ pretty (length (List.filter negb invokes))
              +:+ " invoke errors"]).
Proof.
  intros Hd Hi Ht He. apply dispatch_value in Hd. subst started.
  rewrite warmUp_invokes_run. eexists _, _. split; [reflexivity|].
  split; [exact (started_from_names _ _ _ _ _ _ Hi)|].
  split; [|split; [|split; [|split]]].
  - destruct (failure_is_logged functions env _ i func batch t e Hi Ht He)
      as (t' & e' & H1 & H2 & H3).
    exists t', e'. split; [assumption|]. split; [assumption|].
    cbn [after stderr]. apply in_or_app. right. exact H3.
  - rewrite list_lookup_fmap, Hi. simpl.
    destruct (Promise_all_throws lambda batch t e Ht He) as (t' & e' & _ & _ & ->).
    reflexivity.
  - intros lambda' j Hj Hsame. rewrite warmUp_invokes_run. eexists _, _.
    split; [reflexivity|]. rewrite !list_lookup_fmap.
    destruct (started_from env (length (requests w)) functions !! j)
      as [[r|fj bj]|] eqn:Ej; simpl; try reflexivity.
    rewrite (Promise_all_ext lambda lambda' bj); [reflexivity|].
    intros t' Ht'. apply Hsame. intros Hin.
    exact (started_from_disjoint _ _ _ _ _ _ _ _ _ _ Hj Ej Hi Ht' Hin).
  - rewrite warmUp_run, logVerbose_run. reflexivity.
  - intros ->. rewrite warmUp_run. reflexivity.
Qed.

(** C6, as the code has it.  Every request of a run is built from one
    function of the list: the context is [config.clientContext], or
    [config.payload] when that is undefined; a non-empty context goes out as
    the base64 of [{"custom":<value>}], and there is no header when the
    context is undefined or empty; the qualifier is [config.alias] when that
    is non-empty and the variable [SERVERLESS_ALIAS] otherwise; the payload
    is [config.payload] as it is. *)
Theorem invocation_request_fields (functions : list FunctionTarget)
    (env : gmap string string) (w : World) (r : InvokeCommandInput) :
  In r (requests (fst (warmUp functions verbose lambda arrival env w))) ->
  In r (requests w)
  \/ exists func : FunctionTarget,
       In func functions
       /\ FunctionName r = fn_name func
       /\ InvocationType r = "RequestResponse"
       /\ LogType r = "None"
       /\ Payload r = cfg_payload (fn_config func)
       /\ ClientContext r
          = match
              match cfg_clientContext (fn_config func) with
              | Some c => Some c
              | None => cfg_payload (fn_config func)
              end
            with
            | Some v =>
                if String.eqb v "" then None
                else Some (base64 ("{" +:+ dquote +:+ "custom" +:+ dquote +:+ ":"
                                   +:+ v +:+ "}"))
            | None => None
            end
       /\ Qualifier r
          = match cfg_alias (fn_config func) with
            | Some a => if String.eqb a "" then env !! "SERVERLESS_ALIAS" else Some a
            | None => env !! "SERVERLESS_ALIAS"
            end.
Proof.
  rewrite warmUp_requests. intros Hin. apply in_app_or in Hin as [Hin|Hin];
    [now left|right].
  apply in_flat_map in Hin as (func & Hfunc & Hr). apply repeat_spec in Hr. subst r.
  exists func. split; [assumption|]. unfold invokeCommand_of. simpl.
  repeat (split; [reflexivity|]). split.
  - unfold clientContext_of.
    destruct (cfg_clientContext (fn_config func)) as [c|]; simpl.
    + unfold string_truthy. now destruct (String.eqb c "").
    + destruct (cfg_payload (fn_config func)) as [p|]; simpl; [|reflexivity].
      unfold string_truthy. now destruct (String.eqb p "").
  - destruct (cfg_alias (fn_config func)) as [a|]; simpl; [|reflexivity].
    unfold string_truthy. now destruct (String.eqb a "").
Qed.

End ScriptClaims.

(** C9.  A script rendered with [verbose = false] writes nothing to the
    standard output (no success line, no summary), while the error channel
    is the one of the script rendered with [verbose = true]: a failed batch
    is written to it whatever the flag. *)
Theorem quiet_script_still_logs_failures (functions : list FunctionTarget)
    (lambda : nat -> option JsError) (arrival : nat -> nat)
    (env : gmap string string) (w : World) :
  stdout (fst (warmUp functions false lambda arrival env w)) = stdout w
  /\ stderr (fst (warmUp functions false lambda arrival env w))
     = stderr (fst (warmUp functions true lambda arrival env w))
  /\ forall (v : bool) (started : list Started) (i : nat) (func : FunctionTarget)
       (batch : list nat) (t : nat) (e : JsError),
       snd (dispatch functions v env w) = Return started ->
       started !! i = Some (Awaiting func batch) ->
       In t batch ->
       lambda t = Some e ->
       exists e' : JsError,
         In ("Warm Up Invoke Error: " +:+ fn_name func, e')
           (stderr (fst (warmUp functions v lambda arrival env w))).
Proof.
  split; [|split].
  - rewrite warmUp_run. unfold warmUp_adds. cbn [fst after stdout verbose_lines].
    rewrite stdout_dispatch_adds_quiet, stdout_settle_adds_quiet.
    now rewrite !app_nil_r.
  - rewrite !warmUp_run. unfold warmUp_adds. cbn [fst after stderr].
    now rewrite (stderr_dispatch_adds_verbose false true),
      (stderr_settle_adds_verbose false true).
  - intros v started i func batch t e Hd Hi Ht He.
    apply dispatch_value in Hd. subst started.
    destruct (failure_is_logged v lambda arrival functions env _ i func batch t e
                Hi Ht He) as (t' & e' & _ & _ & H3).
    exists e'. rewrite warmUp_run. cbn [fst after stderr].
    rewrite app_nil_r. apply in_or_app. right. exact H3.
Qed.

(** ** The properties on the sample inputs *)

Example parseInt_samples :
  (parseInt "  42abc", parseInt "-7", parseInt "0x1F", parseInt "12.5")
  = (Int 42, Int (-7), Int 31, Int 12)
  /\ (parseInt "abc", parseInt "", parseInt "0x", parseInt "+", parseInt "NaN")
     = (NaN, NaN, NaN, NaN, NaN).
Proof. split; reflexivity. Qed.

Example base64_samples :
  (base64 "f", base64 "fo", base64 "foo", base64 "foobar")
  = ("Zg==", "Zm8=", "Zm9v", "Zm9vYmFy").
Proof. reflexivity. Qed.

Example stringify_sample :
  stringify "" (jarray [JNum 1; jarray []; JNull; JObj [("a", JUndefined)]; JUndefined])
  = Some ("[" +:+ nl +:+ "  1," +:+ nl +:+ "  []," +:+ nl +:+ "  null," +:+ nl
          +:+ "  {}," +:+ nl +:+ "  null" +:+ nl +:+ "]").
Proof. reflexivity. Qed.

(** A run of a verbose script over two functions, the first of which
    fails. *)
Example warmUp_sample :
  warmUp [target "foo" 1; bar] true first_fails in_order no_env nothing
  = ({| requests := [invokeCommand_of (target "foo" 1) no_env; invokeCommand_of bar no_env];
        stdout := ["Warm Up Start";
                   "Warming up function: foo with concurrency: 1";
                   "Warming up function: bar with concurrency: 1";
                   "Warm Up Invoke Success: bar";
                   "Warm Up Finished with 1 invoke errors"];
        stderr := [("Warm Up Invoke Error: foo", HostError "boom")] |},
     Return tt).
Proof. vm_compute. reflexivity. Qed.

(** On a [null] resources section the role synthesizer throws. *)
Lemma role_synthesizer_throws_on_null (capitalize : string -> string) (service : Service)
    (stage : JsValue) (warmerName : string) (warmerConfig : WarmerConfig) :
  null_resources service = true ->
  exists message : string,
    snd (addWarmUpFunctionRoleToResources capitalize service stage warmerName warmerConfig)
    = Throw (TypeError message).
Proof.
  destruct service as [sname res fns]. unfold null_resources. simpl.
  unfold addWarmUpFunctionRoleToResources.
  destruct res as [| |b|n|s|elems named|props]; simpl; try discriminate.
  - intros _. eexists. reflexivity.
  - destruct (own "Resources" named) eqn:HR; try discriminate. intros _. simpl.
    rewrite HR. simpl. eexists. reflexivity.
  - destruct (own "Resources" props) eqn:HR; try discriminate. intros _. simpl.
    rewrite HR. simpl. eexists. reflexivity.
Qed.

Lemma role_identifier_is_shared_witness :
  null_resources shop = false
  /\ exists (service' : Service) (warmerConfig' : WarmerConfig)
       (entry : list (string * JsValue)),
       addWarmUpFunctionRoleToResources capitalize_first shop (JStr "dev") "default"
         shop_warmer
       = (service', warmerConfig', Return tt)
       /\ wc_role warmerConfig' = JStr "WarmUpPluginDefaultRole"
       /\ own "warmUpPluginDefault"
            (svc_functions
               (addWarmUpFunctionToService capitalize_first "/" service' "default"
                  warmerConfig'))
          = JObj entry
       /\ own "role" entry = JStr "WarmUpPluginDefaultRole".
Proof.
  split; [reflexivity|].
  destruct (role_identifier_is_shared capitalize_first "/" shop (JStr "dev") "default"
              shop_warmer eq_refl)
    as (s & c & R & entry & H1 & H2 & _ & _ & H5 & H6).
  exists s, c, entry.
  split; [exact H1|]. split; [exact H2|]. split; [exact H5|exact H6].
Defined.

Lemma invoke_permission_lists_functions_witness :
  null_resources shop = false
  /\ exists entries : list JsValue,
       length entries = 2
       /\ entries !! 1
          = Some (JObj [("Fn::Sub",
                         JStr "arn:${AWS::Partition}:lambda:${AWS::Region}:${AWS::AccountId}:function:shop-dev-pay*")]).
Proof.
  split; [reflexivity|].
  destruct (invoke_permission_lists_functions capitalize_first shop (JStr "dev")
              "default" shop_warmer eq_refl)
    as (s & c & entries & _ & _ & Hlen & Hnth).
  exists entries. split; [exact Hlen|].
  exact (Hnth 1 {| fr_name := "shop-dev-pay" |} eq_refl).
Defined.

Lemma tracing_import_is_not_the_installed_package_witness :
  snd (createWarmUpFunctionArtifact posix_join host_ok (jarray []) true false "us-east-1"
         ".warmup/default" [])
  = Return tt
  /\ exists installed : string,
       installed <> "aws-xray-sdk"
       /\ fst (createWarmUpFunctionArtifact posix_join host_ok (jarray []) true false
                 "us-east-1" ".warmup/default" [])
          = [Mkdir ".warmup/default";
             WriteFile ".warmup/default/index.mjs"
               (render (jarray []) true false "us-east-1");
             Exec "npm init -y" ".warmup/default";
             Exec ("npm install --save " +:+ installed) ".warmup/default"].
Proof.
  split; [reflexivity|].
  destruct (tracing_import_is_not_the_installed_package posix_join (jarray []) false
              "us-east-1" ".warmup/default")
    as (imported & installed & _ & Hcalls & _ & Himported & _ & Hne).
  exists installed. split.
  - intros E. apply Hne. now rewrite Himported, E.
  - exact (Hcalls host_ok [] eq_refl).
Defined.

(** The claim C3 on an environment whose per-function variable is set to the
    empty string: the variable is set, and the global one wins; and on a
    static concurrency of 2^32: no request goes out. *)
Lemma empty_override_is_skipped :
  env_foo_empty !! concurrency_key foo = Some ""
  /\ stated_concurrency foo env_foo_empty = NaN
  /\ snd (getConcurrency false foo env_foo_empty nothing) = Return (Int 2)
  /\ snd (getConcurrency false foo env_foo_empty nothing)
     <> Return (stated_concurrency foo env_foo_empty)
  /\ requests
       (fst (warmUp [target "foo" 4294967296] false always_answers in_order no_env
               nothing))
     = [].
Proof.
  split; [vm_compute; reflexivity|]. split; [vm_compute; reflexivity|].
  split; [vm_compute; reflexivity|]. split; [vm_compute; discriminate|].
  vm_compute. reflexivity.
Qed.

Lemma concurrency_precedence_witness :
  (fn_name foo = "foo"
   /\ env_foo_3 !! "WARMUP_CONCURRENCY_FOO" = Some "3"
   /\ requests (fst (start false env_foo_3 foo nothing))
      = repeat (invokeCommand_of foo env_foo_3) 3)
  /\ (truthy_string (no_env !! concurrency_key foo) = false
      /\ truthy_string (no_env !! "WARMUP_CONCURRENCY") = false
      /\ (0 <= cfg_concurrency (fn_config foo) <= 4294967295)%Z
      /\ exists w' : World,
           warmUp [foo] false always_answers in_order no_env nothing = (w', Return tt)
           /\ requests w' = repeat (invokeCommand_of foo no_env) 5).
Proof.
  split.
  - destruct (concurrency_precedence false always_answers in_order foo env_foo_3 nothing)
      as (_ & _ & _ & _ & H & _).
    split; [reflexivity|]. split; [vm_compute; reflexivity|].
    exact (H eq_refl ltac:(vm_compute; reflexivity)).
  - destruct (concurrency_precedence false always_answers in_order foo no_env nothing)
      as (_ & _ & _ & _ & _ & _ & H).
    split; [vm_compute; reflexivity|]. split; [vm_compute; reflexivity|].
    split; [vm_compute; split; discriminate|].
    exact (H ltac:(vm_compute; reflexivity) ltac:(vm_compute; reflexivity)
             ltac:(vm_compute; split; discriminate)).
Defined.

Lemma non_numeric_override_sends_nothing_witness :
  [foo; bar] !! 0 = Some foo
  /\ env_foo_many !! concurrency_key foo = Some "many"
  /\ "many" <> ""
  /\ non_numeric "many" = true
  /\ parseInt "many" = NaN
  /\ requests (fst (warmUp [foo; bar] false always_answers in_order env_foo_many nothing))
     = requests (fst (warmUp (delete 0 [foo; bar]) false always_answers in_order
                        env_foo_many nothing))
  /\ exists w2 : World,
       warmUp [foo; bar] false always_answers in_order env_foo_many nothing
       = (w2, Return tt).
Proof.
  assert (env_foo_many !! concurrency_key foo = Some "many") as Hset
    by (vm_compute; reflexivity).
  assert ("many" <> "") as Hne by discriminate.
  destruct (non_numeric_override_sends_nothing false always_answers in_order [foo; bar]
              env_foo_many nothing 0 foo "many" eq_refl (or_introl Hset) Hne eq_refl)
    as (Hnan & _ & _ & Hreq & w1 & invokes & _ & _ & _ & Hret).
  split; [reflexivity|]. split; [exact Hset|]. split; [exact Hne|].
  split; [reflexivity|]. split; [exact Hnan|]. split; [exact Hreq|exact Hret].
Defined.

(** The claim C5 on a script rendered with [verbose = false]: one of two
    functions fails, the run returns, and the count of failed functions is
    written nowhere. *)
Lemma quiet_script_reports_no_count :
  snd (warmUp_invokes [target "foo" 1; bar] false first_fails in_order no_env nothing)
  = Return [false; true]
  /\ warmUp [target "foo" 1; bar] false first_fails in_order no_env nothing
     = ({| requests := [invokeCommand_of (target "foo" 1) no_env;
                        invokeCommand_of bar no_env];
           stdout := [];
           stderr := [("Warm Up Invoke Error: foo", HostError "boom")] |},
        Return tt).
Proof. split; vm_compute; reflexivity. Qed.

Lemma invocation_failure_is_isolated_witness :
  snd (dispatch [target "foo" 1; bar] true no_env nothing)
  = Return [Awaiting (target "foo" 1) [0]; Awaiting bar [1]]
  /\ [Awaiting (target "foo" 1) [0]; Awaiting bar [1]] !! 0
     = Some (Awaiting (target "foo" 1) [0])
  /\ In 0 [0]
  /\ first_fails 0 = Some (HostError "boom")
  /\ exists (w1 : World) (invokes : list bool),
       warmUp_invokes [target "foo" 1; bar] true first_fails in_order no_env nothing
       = (w1, Return invokes)
       /\ invokes !! 0 = Some false
       /\ stdout (fst (warmUp [target "foo" 1; bar] true first_fails in_order no_env
                         nothing))
          = stdout w1
            ++ ["Warm Up Finished with "
                +:+ pretty (length (List.filter negb invokes)) +:+ " invoke errors"].
Proof.
  assert (snd (dispatch [target "foo" 1; bar] true no_env nothing)
          = Return [Awaiting (target "foo" 1) [0]; Awaiting bar [1]]) as Hd
    by (vm_compute; reflexivity).
  destruct (invocation_failure_is_isolated true first_fails in_order
              [target "foo" 1; bar] no_env nothing _ 0 (target "foo" 1) [0] 0
              (HostError "boom") Hd eq_refl (or_introl eq_refl) eq_refl)
    as (w1 & invokes & Hrun & _ & _ & Hfalse & _ & _ & Hout).
  split; [exact Hd|]. split; [reflexivity|]. split; [now left|].
  split; [reflexivity|]. exists w1, invokes.
  split; [exact Hrun|]. split; [exact Hfalse|exact (Hout eq_refl)].
Defined.

(** The claim C6 on a function whose client context is the empty string:
    a value is there (and a payload besides), and no header is sent. *)
Lemma empty_client_context_sends_no_header :
  cfg_clientContext (fn_config silent) = Some ""
  /\ cfg_payload (fn_config silent) = Some "{}"
  /\ ClientContext (invokeCommand_of silent no_env) = None
  /\ stated_ClientContext silent = Some "eyJjdXN0b20iOn0="
  /\ ClientContext (invokeCommand_of silent no_env) <> stated_ClientContext silent.
Proof.
  split; [reflexivity|]. split; [reflexivity|]. split; [reflexivity|].
  split; [reflexivity|]. discriminate.
Qed.

Lemma invocation_request_fields_witness :
  In (invokeCommand_of foo no_env)
    (requests (fst (warmUp [foo] false always_answers in_order no_env nothing)))
  /\ (In (invokeCommand_of foo no_env) (requests nothing)
      \/ exists func : FunctionTarget,
           In func [foo]
           /\ FunctionName (invokeCommand_of foo no_env) = fn_name func
           /\ ClientContext (invokeCommand_of foo no_env)
              = Some "eyJjdXN0b20iOnt9fQ==").
Proof.
  assert (In (invokeCommand_of foo no_env)
            (requests (fst (warmUp [foo] false always_answers in_order no_env nothing))))
    as Hin by (vm_compute; left; reflexivity).
  split; [exact Hin|].
  destruct (invocation_request_fields false always_answers in_order [foo] no_env nothing
              _ Hin) as [H|(func & H1 & H2 & _)].
  - left. exact H.
  - right. exists func. split; [exact H1|]. split; [exact H2|reflexivity].
Defined.

Lemma quiet_script_still_logs_failures_witness :
  snd (dispatch [target "foo" 1; bar] false no_env nothing)
  = Return [Awaiting (target "foo" 1) [0]; Awaiting bar [1]]
  /\ first_fails 0 = Some (HostError "boom")
  /\ stdout (fst (warmUp [target "foo" 1; bar] false first_fails in_order no_env nothing))
     = []
  /\ exists e' : JsError,
       In ("Warm Up Invoke Error: foo", e')
         (stderr (fst (warmUp [target "foo" 1; bar] false first_fails in_order no_env
                         nothing))).
Proof.
  assert (snd (dispatch [target "foo" 1; bar] false no_env nothing)
          = Return [Awaiting (target "foo" 1) [0]; Awaiting bar [1]]) as Hd
    by (vm_compute; reflexivity).
  destruct (quiet_script_still_logs_failures [target "foo" 1; bar] first_fails in_order
              no_env nothing) as (Hout & _ & Hlog).
  split; [exact Hd|]. split; [reflexivity|]. split; [exact Hout|].
  exact (Hlog false _ 0 (target "foo" 1) [0] 0 (HostError "boom") Hd eq_refl
           (or_introl eq_refl) eq_refl).
Defined.

Lemma zero_concurrency_counts_as_success_witness :
  [foo; bar] !! 0 = Some foo
  /\ snd (getConcurrency false foo env_foo_0 nothing) = Return (Int 0)
  /\ exists (w1 : World) (invokes : list bool),
       warmUp_invokes [foo; bar] false always_answers in_order env_foo_0 nothing
       = (w1, Return invokes)
       /\ invokes !! 0 = Some true
       /\ invoke_errors invokes = invoke_errors (delete 0 invokes).
Proof.
  assert (snd (getConcurrency false foo env_foo_0 nothing) = Return (Int 0)) as Hzero
    by (vm_compute; reflexivity).
  destruct (zero_concurrency_counts_as_success false always_answers in_order [foo; bar]
              env_foo_0 nothing 0 foo eq_refl Hzero) as (_ & _ & H & _).
  split; [reflexivity|]. split; [exact Hzero|exact H].
Defined.

(** ** More on the role synthesizer *)

Lemma assign_own (k : string) (v : JsValue) (props : list (string * JsValue)) :
  own k props = v -> v <> JUndefined -> assign k v props = props.
Proof.
  intros H Hv. induction props as [|[k' v'] rest IH]; simpl in *.
  - congruence.
  - destruct (String.eqb k' k); [now subst|]. now rewrite IH.
Qed.

Lemma append_length (s t : string) :
  String.length (s +:+ t) = String.length s + String.length t.
Proof. induction s as [|a s IH]; [reflexivity|]. rewrite append_cons. simpl. now rewrite IH. Qed.

Lemma append_inj_l (s t u : string) : s +:+ t = s +:+ u -> t = u.
Proof.
  induction s as [|a s IH]; [auto|]. rewrite !append_cons. intros [= H]. auto.
Qed.

Lemma append_inj_r (s t u : string) : s +:+ u = t +:+ u -> s = t.
Proof.
  revert t. induction s as [|a s IH]; intros t H.
  - destruct t as [|b t]; [reflexivity|].
    apply (f_equal String.length) in H. rewrite !append_length in H.
    simpl in H. lia.
  - destruct t as [|b t].
    + apply (f_equal String.length) in H. rewrite !append_length in H.
      simpl in H. lia.
    + rewrite !append_cons in H. injection H as -> H. f_equal. now apply IH.
Qed.

Lemma role_identifier_inj (capitalize : string -> string) (a b : string) :
  role_identifier capitalize a = role_identifier capitalize b ->
  capitalize a = capitalize b.
Proof.
  unfold role_identifier. intros H. apply append_inj_l in H.
  now apply append_inj_r in H.
Qed.

Lemma assign_assign (k : string) (v v' : JsValue) (props : list (string * JsValue)) :
  assign k v (assign k v' props) = assign k v props.
Proof.
  induction props as [|[k0 v0] rest IH]; simpl.
  - now rewrite String.eqb_refl.
  - destruct (String.eqb k0 k) eqn:E; simpl; rewrite E; [reflexivity|]. now rewrite IH.
Qed.

Lemma string_eqb_false (a b : string) : a <> b -> String.eqb a b = false.
Proof. intros H. now apply String.eqb_neq. Qed.

Lemma own_of_put_eq (v x : JsValue) (k : string) :
  is_object_type v = true -> v <> JNull -> own_of (put v k x) k = x.
Proof.
  destruct v; simpl; try discriminate; try congruence; intros _ _;
    apply own_assign_eq.
Qed.

Lemma own_of_put_ne (v x : JsValue) (k k' : string) :
  k <> k' -> own_of (put v k x) k' = own_of v k'.
Proof.
  intros H. destruct v; simpl; try reflexivity; now apply own_assign_ne.
Qed.

Lemma own_of_as_object (v : JsValue) (k : string) :
  v <> JNull -> own_of (as_object v) k = own_of v k.
Proof.
  destruct v; unfold as_object; simpl; intros H;
    solve [reflexivity | congruence].
Qed.

Lemma at_path_key (v : JsValue) (k : string) (rest : list PathStep) :
  at_path v (Key k :: rest)
  = match v with
    | JObj _ | JArr _ _ => at_path (own_of v k) rest
    | _ => JUndefined
    end.
Proof. destruct v; reflexivity. Qed.

Lemma as_object_is_object (v : JsValue) :
  v <> JNull -> exists l, as_object v = JObj l \/ exists e, as_object v = JArr e l.
Proof.
  destruct v; unfold as_object; simpl; try congruence; intros _; eauto.
Qed.

Lemma as_object_object (v : JsValue) :
  v <> JNull -> is_object_type (as_object v) = true /\ as_object v <> JNull.
Proof.
  destruct v; unfold as_object; simpl; intros H; split;
    solve [reflexivity | discriminate | congruence].
Qed.

Lemma put_object (v x : JsValue) (k : string) :
  is_object_type v = true -> v <> JNull ->
  is_object_type (put v k x) = true /\ put v k x <> JNull.
Proof.
  destruct v; simpl; intros H1 H2; split;
    solve [reflexivity | discriminate | congruence].
Qed.

Lemma put_put (v x y : JsValue) (k : string) : put (put v k x) k y = put v k y.
Proof. destruct v; simpl; try reflexivity; now rewrite assign_assign. Qed.

Lemma as_object_id (v : JsValue) : is_object_type v = true -> as_object v = v.
Proof. unfold as_object. now intros ->. Qed.

Lemma not_null_resources (service : Service) :
  null_resources service = false ->
  svc_resources service <> JNull
  /\ own_of (svc_resources service) "Resources" <> JNull.
Proof.
  unfold null_resources. destruct (svc_resources service); simpl; intros H; split;
    try discriminate; try congruence; intros E; rewrite E in H; discriminate.
Qed.

Lemma null_resources_of_object (service : Service) :
  is_object_type (svc_resources service) = true ->
  svc_resources service <> JNull ->
  own_of (svc_resources service) "Resources" <> JNull ->
  null_resources service = false.
Proof.
  unfold null_resources. destruct (svc_resources service); simpl; try congruence;
    intros _ _ H; destruct (own "Resources" _); simpl; congruence.
Qed.

(** The section the role synthesizer leaves: the role's document is in
    [Resources], and nothing else has changed. *)
Lemma resources_after_object (res doc : JsValue) (role : string) :
  res <> JNull ->
  is_object_type (resources_after res role doc) = true
  /\ resources_after res role doc <> JNull.
Proof.
  intros H. unfold resources_after.
  destruct (as_object_object res H). now apply put_object.
Qed.

Lemma resources_after_Resources (res doc : JsValue) (role : string) :
  res <> JNull ->
  own_of (resources_after res role doc) "Resources"
  = put (as_object (own_of res "Resources")) role doc.
Proof.
  intros H. unfold resources_after. destruct (as_object_object res H).
  rewrite own_of_put_eq by assumption. now rewrite own_of_as_object.
Qed.

Lemma resources_after_role (res doc : JsValue) (role : string) :
  res <> JNull -> own_of res "Resources" <> JNull ->
  own_of (own_of (resources_after res role doc) "Resources") role = doc.
Proof.
  intros H HR. rewrite resources_after_Resources by assumption.
  destruct (as_object_object _ HR). now apply own_of_put_eq.
Qed.

Lemma resources_after_other_role (res doc : JsValue) (role k : string) :
  res <> JNull -> own_of res "Resources" <> JNull -> role <> k ->
  own_of (own_of (resources_after res role doc) "Resources") k
  = own_of (own_of res "Resources") k.
Proof.
  intros H HR Hk. rewrite resources_after_Resources by assumption.
  rewrite own_of_put_ne by assumption. now apply own_of_as_object.
Qed.


Lemma resources_after_again (res doc doc' : JsValue) (role : string) :
  res <> JNull -> own_of res "Resources" <> JNull ->
  resources_after (resources_after res role doc) role doc'
  = resources_after res role doc'.
Proof.
  intros H HR.
  destruct (resources_after_object res doc role H) as [Hobj Hnn].
  unfold resources_after at 1. rewrite (as_object_id _ Hobj).
  rewrite resources_after_Resources by assumption.
  destruct (as_object_object _ HR) as [HRo HRn].
  destruct (put_object _ doc role HRo HRn) as [Hpo _].
  rewrite (as_object_id _ Hpo), put_put.
  unfold resources_after. rewrite put_put.
  now rewrite own_of_as_object by assumption.
Qed.

Section RoleSynthesizerMore.

Variable capitalize : string -> string.

(** What the role synthesizer returns on a service it does not throw on. *)
Lemma role_synthesizer_returns (service : Service) (stage : JsValue)
    (warmerName : string) (c : WarmerConfig) :
  null_resources service = false ->
  addWarmUpFunctionRoleToResources capitalize service stage warmerName c
  = (with_resources
       (resources_after (svc_resources service)
          (role_identifier capitalize warmerName)
          (role_document service stage warmerName
             (with_role (JStr (role_identifier capitalize warmerName)) c)))
       service,
     with_role (JStr (role_identifier capitalize warmerName)) c, Return tt).
Proof.
  destruct service as [sname res fns]. unfold null_resources. simpl.
  intros Hnull. unfold addWarmUpFunctionRoleToResources, resources_after.
  destruct res as [| |b|n|s|elems named|props]; simpl in *; try discriminate;
    try reflexivity.
  - destruct (own "Resources" named) as [| |b|n|s|elems' named'|props'] eqn:HR;
      simpl in *; try discriminate; rewrite ?own_assign_eq; simpl;
      rewrite ?HR; simpl; rewrite ?assign_assign; reflexivity.
  - destruct (own "Resources" props) as [| |b|n|s|elems' named'|props'] eqn:HR;
      simpl in *; try discriminate; rewrite ?own_assign_eq; simpl;
      rewrite ?HR; simpl; rewrite ?assign_assign; reflexivity.
Qed.

(** X1.  On a service whose resources section, or its [Resources], is
    [null], the role synthesizer throws a [TypeError]; the service is left
    as it was, and [warmerConfig.role] has been assigned all the same. *)
Theorem role_synthesizer_throws_with_role_assigned (service : Service) (stage : JsValue)
    (warmerName : string) (warmerConfig : WarmerConfig) :
  null_resources service = true ->
  exists message : string,
    addWarmUpFunctionRoleToResources capitalize service stage warmerName warmerConfig
    = (service,
       with_role (JStr ("WarmUpPlugin" +:+ capitalize warmerName +:+ "Role")) warmerConfig,
       Throw (TypeError message)).
Proof.
  destruct service as [sname res fns]. unfold null_resources. simpl.
  unfold addWarmUpFunctionRoleToResources.
  destruct res as [| |b|n|s|elems named|props]; simpl; try discriminate.
  - intros _. eexists. reflexivity.
  - destruct (own "Resources" named) eqn:HR; try discriminate. intros _. simpl.
    rewrite HR. simpl. eexists. reflexivity.
  - destruct (own "Resources" props) eqn:HR; try discriminate. intros _. simpl.
    rewrite HR. simpl. eexists. reflexivity.
Qed.


(** X3.  Running the role synthesizer again on what it returned changes
    nothing: the document is written over itself. *)
Theorem role_synthesizer_is_idempotent (service : Service) (stage : JsValue)
    (warmerName : string) (warmerConfig : WarmerConfig) :
  null_resources service = false ->
  exists (service' : Service) (warmerConfig' : WarmerConfig),
    addWarmUpFunctionRoleToResources capitalize service stage warmerName warmerConfig
    = (service', warmerConfig', Return tt)
    /\ addWarmUpFunctionRoleToResources capitalize service' stage warmerName warmerConfig'
       = (service', warmerConfig', Return tt).
Proof.
  intros Hnull. rewrite (role_synthesizer_returns _ _ _ _ Hnull).
  destruct (not_null_resources service Hnull) as [Hres HR].
  eexists _, _. split; [reflexivity|].
  set (role := role_identifier capitalize warmerName).
  set (c' := with_role (JStr role) warmerConfig).
  set (doc := role_document service stage warmerName c').
  destruct (resources_after_object (svc_resources service) doc role Hres) as [Ho Hn].
  assert (null_resources (with_resources (resources_after (svc_resources service) role doc)
                            service) = false) as Hnull'.
  { apply null_resources_of_object; simpl svc_resources; try assumption.
    rewrite resources_after_Resources by assumption.
    destruct (as_object_object _ HR) as [HRo HRn].
    now apply put_object. }
  rewrite (role_synthesizer_returns _ _ _ _ Hnull'). simpl svc_resources.
  fold role. rewrite resources_after_again by assumption. reflexivity.
Qed.

(** X4.  Two warmers whose capitalized names differ get two roles: after
    the synthesizer has run for both, each document is under its own key. *)
Theorem two_warmers_two_roles (service : Service) (stage : JsValue)
    (name1 name2 : string) (config1 config2 : WarmerConfig) :
  null_resources service = false ->
  capitalize name1 <> capitalize name2 ->
  exists (service1 service2 : Service) (config1' config2' : WarmerConfig),
    addWarmUpFunctionRoleToResources capitalize service stage name1 config1
    = (service1, config1', Return tt)
    /\ addWarmUpFunctionRoleToResources capitalize service1 stage name2 config2
       = (service2, config2', Return tt)
    /\ wc_role config1' <> wc_role config2'
    /\ own_of (own_of (svc_resources service2) "Resources")
         ("WarmUpPlugin" +:+ capitalize name1 +:+ "Role")
       = role_document service stage name1 config1'
    /\ own_of (own_of (svc_resources service2) "Resources")
         ("WarmUpPlugin" +:+ capitalize name2 +:+ "Role")
       = role_document service stage name2 config2'.
Proof.
  intros Hnull Hne. rewrite (role_synthesizer_returns _ _ _ _ Hnull).
  destruct (not_null_resources service Hnull) as [Hres HR].
  set (role1 := role_identifier capitalize name1).
  set (doc1 := role_document service stage name1 (with_role (JStr role1) config1)).
  destruct (resources_after_object (svc_resources service) doc1 role1 Hres) as [Ho Hn].
  assert (own_of (resources_after (svc_resources service) role1 doc1) "Resources" <> JNull)
    as HR1.
  { rewrite resources_after_Resources by assumption.
    destruct (as_object_object _ HR) as [HRo HRn]. now apply put_object. }
  assert (null_resources (with_resources (resources_after (svc_resources service) role1 doc1)
                            service) = false) as Hnull'.
  { apply null_resources_of_object; simpl svc_resources; assumption. }
  assert (role_identifier capitalize name2 <> role1) as Hroles.
  { intros E. apply Hne. symmetry. exact (role_identifier_inj _ _ _ E). }
  eexists _, _, _, _. split; [reflexivity|].
  split; [exact (role_synthesizer_returns _ stage name2 config2 Hnull')|].
  simpl svc_resources. split; [|split].
  - simpl. fold role1. congruence.
  - change ("WarmUpPlugin" +:+ capitalize name1 +:+ "Role") with role1.
    rewrite resources_after_other_role by assumption.
    now apply resources_after_role.
  - apply resources_after_role; assumption.
Qed.

End RoleSynthesizerMore.

(** ** More on the function definition synthesizer *)

Lemma has_own_assign_eq (k : string) (v : JsValue) (props : list (string * JsValue)) :
  has_own k (assign k v props) = true.
Proof.
  induction props as [|[k' v'] rest IH]; simpl.
  - now rewrite String.eqb_refl.
  - destruct (String.eqb k' k) eqn:E; simpl; rewrite E; [reflexivity|exact IH].
Qed.

Lemma length_assign (k : string) (v : JsValue) (props : list (string * JsValue)) :
  length (assign k v props)
  = if has_own k props then length props else S (length props).
Proof.
  induction props as [|[k' v'] rest IH]; simpl; [reflexivity|].
  destruct (String.eqb k' k); simpl; [reflexivity|].
  rewrite IH. now destruct (has_own k rest).
Qed.

Lemma has_char_string_map_sep (sep : ascii) (s : string) :
  sep <> "/"%char ->
  has_char sep (string_map (fun c => if Ascii.eqb c sep then "/"%char else c) s) = false.
Proof.
  intros Hsep. induction s as [|a s IH]; simpl; [reflexivity|].
  rewrite IH, orb_false_r. destruct (Ascii.eqb a sep) eqn:E.
  - apply Ascii.eqb_neq. congruence.
  - exact E.
Qed.

Lemma string_map_length (f : ascii -> ascii) (s : string) :
  String.length (string_map f s) = String.length s.
Proof. induction s as [|a s IH]; simpl; [reflexivity|]. now rewrite IH. Qed.

Lemma string_map_id (f : ascii -> ascii) (s : string) :
  (forall c, f c = c) -> string_map f s = s.
Proof. intros H. induction s as [|a s IH]; simpl; [reflexivity|]. now rewrite H, IH. Qed.

Section ManifestMore.

Variable capitalize : string -> string.
Variable path_sep : ascii.

(** X5.  Which optional fields the manifest entry carries: [environment]
    when it has a key, [tracing] and [logRetentionInDays] when they are not
    [undefined] (so a [tracing] of [false] is carried), and [architecture],
    [roleName], [role], [tags] and [vpc] when they are truthy (so a [vpc] of
    [false] is not).  The nine other fields are always there, and no field
    comes twice. *)
Theorem manifest_entry_fields (warmerName : string) (warmerConfig : WarmerConfig) :
  let entry := function_definition path_sep warmerName warmerConfig in
  NoDup (map fst entry)
  /\ forallb (fun k => has_own k entry)
       ["description"; "events"; "handler"; "memorySize"; "name"; "runtime";
        "package"; "timeout"; "layers"] = true
  /\ has_own "environment" entry
     = negb (Nat.eqb (length (wc_environment warmerConfig)) 0)
  /\ has_own "tracing" entry = is_defined (wc_tracing warmerConfig)
  /\ has_own "logRetentionInDays" entry = is_defined (wc_logRetentionInDays warmerConfig)
  /\ has_own "architecture" entry = truthy (wc_architecture warmerConfig)
  /\ has_own "roleName" entry = truthy (wc_roleName warmerConfig)
  /\ has_own "role" entry = truthy (wc_role warmerConfig)
  /\ has_own "tags" entry = truthy (wc_tags warmerConfig)
  /\ has_own "vpc" entry = truthy (wc_vpc warmerConfig)
  /\ own "tracing" entry = wc_tracing warmerConfig
  /\ own "runtime" entry = JStr "nodejs22.x"
  /\ own "layers" entry = jarray [].
Proof.
  cbv zeta. unfold function_definition, spread_if.
  destruct (truthy (wc_architecture warmerConfig)),
    (Nat.eqb (length (wc_environment warmerConfig)) 0),
    (is_defined (wc_tracing warmerConfig)) eqn:Et,
    (is_defined (wc_logRetentionInDays warmerConfig)),
    (truthy (wc_roleName warmerConfig)), (truthy (wc_role warmerConfig)),
    (truthy (wc_tags warmerConfig)), (truthy (wc_vpc warmerConfig));
    (split; [apply (bool_decide_unpack _); vm_compute; exact I|]);
    do 9 (split; [reflexivity|]);
    (split; [|split; reflexivity]);
    try reflexivity;
    destruct (wc_tracing warmerConfig); try discriminate; reflexivity.
Qed.

(** X6.  The function definition synthesizer writes one entry of
    [service.functions], under ["warmUpPlugin" + capitalize(name)]: an entry
    already under that key is replaced, the map grows by one otherwise, every
    other function reads as before, and [resources] is not touched. *)
Theorem manifest_keeps_other_functions (service : Service) (warmerName : string)
    (warmerConfig : WarmerConfig) :
  let key := "warmUpPlugin" +:+ capitalize warmerName in
  let service' :=
    addWarmUpFunctionToService capitalize path_sep service warmerName warmerConfig in
  svc_resources service' = svc_resources service
  /\ svc_service service' = svc_service service
  /\ own key (svc_functions service')
     = JObj (function_definition path_sep warmerName warmerConfig)
  /\ (forall k : string,
        k <> key -> own k (svc_functions service') = own k (svc_functions service))
  /\ length (svc_functions service')
     = if has_own key (svc_functions service)
       then length (svc_functions service)
       else S (length (svc_functions service)).
Proof.
  unfold addWarmUpFunctionToService, function_key. simpl.
  split; [reflexivity|]. split; [reflexivity|]. split; [apply own_assign_eq|].
  split; [|apply length_assign].
  intros k Hk. apply own_assign_ne. congruence.
Qed.

(** X7.  The handler of the manifest entry is [pathHandler] with every host
    separator turned into a slash: it has the length of [pathHandler], no
    host separator is left in it on a host whose separator is not the slash,
    and it is [pathHandler] itself on a host whose separator is the
    slash. *)
Theorem manifest_handler_is_posix (warmerName : string) (warmerConfig : WarmerConfig) :
  exists handler : string,
    own "handler" (function_definition path_sep warmerName warmerConfig) = JStr handler
    /\ String.length handler = String.length (wc_pathHandler warmerConfig)
    /\ (path_sep <> "/"%char -> has_char path_sep handler = false)
    /\ (path_sep = "/"%char -> handler = wc_pathHandler warmerConfig).
Proof.
  exists (to_posix path_sep (wc_pathHandler warmerConfig)).
  split; [reflexivity|]. unfold to_posix. split; [apply string_map_length|]. split.
  - apply has_char_string_map_sep.
  - intros ->. apply string_map_id. intros c.
    destruct (Ascii.eqb c "/") eqn:E; [|reflexivity].
    apply Ascii.eqb_eq in E. now subst.
Qed.

End ManifestMore.

(** ** More on the artifact synthesizer *)

Lemma perform_all_spec (host : list Effect -> Effect -> option JsError)
    (plan calls : list Effect) :
  exists made : list Effect,
    fst (perform_all host plan calls) = calls ++ made
    /\ match snd (perform_all host plan calls) with
       | Return _ => made = plan
       | Throw e =>
           exists (done : list Effect) (last : Effect) (rest : list Effect),
             made = done ++ [last] /\ plan = made ++ rest
             /\ host (calls ++ done) last = Some e
       end
    /\ forall (done : list Effect) (e : Effect) (more : list Effect),
         made = done ++ e :: more -> more <> [] -> host (calls ++ done) e = None.
Proof.
  revert calls. induction plan as [|e plan IH]; intros calls; simpl.
  - exists []. split; [now rewrite app_nil_r|]. split; [reflexivity|].
    intros done e more H. now destruct done.
  - destruct (host calls e) as [err|] eqn:He.
    + exists [e]. split; [reflexivity|]. split.
      * exists [], e, plan. split; [reflexivity|]. split; [reflexivity|].
        now rewrite app_nil_r.
      * intros done e0 more H Hmore. destruct done as [|d done]; simpl in H.
        -- injection H as _ H. congruence.
        -- injection H as _ H. now destruct done.
    + destruct (IH (calls ++ [e])) as (made & Hfst & Hsnd & Hok).
      exists (e :: made). split; [now rewrite Hfst, <- app_assoc|]. split.
      * destruct (snd (perform_all host plan (calls ++ [e]))) as [[]|err].
        -- now subst.
        -- destruct Hsnd as (done & last & rest & H1 & H2 & H3).
           exists (e :: done), last, rest. split; [now rewrite H1|].
           split; [now rewrite H2|]. now rewrite <- app_assoc in H3.
      * intros done e0 more H Hmore. destruct done as [|d done]; simpl in H.
        -- injection H as <- _. now rewrite app_nil_r.
        -- injection H as <- H. specialize (Hok done e0 more H Hmore).
           now rewrite <- app_assoc in Hok.
Qed.

Lemma createWarmUpFunctionArtifact_performs (path_join : string -> string -> string)
    (host : list Effect -> Effect -> option JsError) (functions : JsValue)
    (tracing verbose : bool) (region handlerFolder : string) (calls : list Effect) :
  createWarmUpFunctionArtifact path_join host functions tracing verbose region
    handlerFolder calls
  = perform_all host
      (artifact_calls path_join functions tracing verbose region handlerFolder) calls.
Proof.
  unfold createWarmUpFunctionArtifact, artifact_calls, bind, perform, ret.
  destruct tracing; simpl;
    repeat match goal with
           | |- context [match host ?c ?e with _ => _ end] =>
               destruct (host c e) eqn:?; simpl
           end;
    reflexivity.
Qed.

Section ArtifactMore.

Variable path_join : string -> string -> string.

(** X8.  The artifact synthesizer makes its calls in one order (create the
    folder, write [index.mjs], and with tracing [npm init] and
    [npm install] in the folder) and stops at the first that fails: the
    error it rejects with is the error of the last call made, every call
    before that one has succeeded, and it fulfils only when all were
    made. *)
Theorem artifact_stops_at_first_failure
    (host : list Effect -> Effect -> option JsError) (functions : JsValue)
    (tracing verbose : bool) (region handlerFolder : string) (calls : list Effect) :
  let plan :=
    [ Mkdir handlerFolder;
      WriteFile (path_join handlerFolder "index.mjs")
        (render functions tracing verbose region) ]
    ++ (if tracing
        then [ Exec "npm init -y" handlerFolder;
               Exec "npm install --save aws-xray-sdk-core" handlerFolder ]
        else []) in
  exists made : list Effect,
    fst (createWarmUpFunctionArtifact path_join host functions tracing verbose region
           handlerFolder calls)
    = calls ++ made
    /\ match snd (createWarmUpFunctionArtifact path_join host functions tracing verbose
                    region handlerFolder calls) with
       | Return _ => made = plan
       | Throw e =>
           exists (done : list Effect) (last : Effect) (rest : list Effect),
             made = done ++ [last] /\ plan = made ++ rest
             /\ host (calls ++ done) last = Some e
       end
    /\ forall (done : list Effect) (e : Effect) (more : list Effect),
         made = done ++ e :: more -> more <> [] -> host (calls ++ done) e = None.
Proof.
  intros plan. rewrite createWarmUpFunctionArtifact_performs.
  apply perform_all_spec.
Qed.

(** X9.  With tracing off, no command is executed, whatever the host
    answers, and the script uses the client as it is. *)
Theorem no_tracing_no_command (host : list Effect -> Effect -> option JsError)
    (functions : JsValue) (verbose : bool) (region handlerFolder : string)
    (calls : list Effect) :
  List.filter is_exec
    (fst (createWarmUpFunctionArtifact path_join host functions false verbose region
            handlerFolder calls))
  = List.filter is_exec calls
  /\ exists before after : string,
       render functions false verbose region
       = before +:+ "const lambdaClient = uninstrumentedLambdaClient;" +:+ after.
Proof.
  split; [|apply (render_holds_lambdaClient functions false verbose region)].
  unfold createWarmUpFunctionArtifact, bind, perform, ret.
  repeat match goal with
         | |- context [match host ?c ?e with _ => _ end] =>
             destruct (host c e) eqn:?; simpl
         end;
    rewrite !List.filter_app; simpl; now rewrite ?app_nil_r.
Qed.

End ArtifactMore.

(** ** More on the rendered script *)

Lemma stderr_settle_adds_flat_map (verbose : bool) (lambda : nat -> option JsError)
    (started : list Started) (order : list nat) :
  stderr (settle_adds verbose lambda started order)
  = flat_map (fun i => match started !! i with
                       | Some s => stderr (resume_adds verbose lambda s)
                       | None => []
                       end) order.
Proof.
  induction order as [|i order IH]; simpl; [reflexivity|].
  destruct (started !! i); simpl; now rewrite IH.
Qed.

Lemma stdout_settle_adds_flat_map (verbose : bool) (lambda : nat -> option JsError)
    (started : list Started) (order : list nat) :
  stdout (settle_adds verbose lambda started order)
  = flat_map (fun i => match started !! i with
                       | Some s => stdout (resume_adds verbose lambda s)
                       | None => []
                       end) order.
Proof.
  induction order as [|i order IH]; simpl; [reflexivity|].
  destruct (started !! i); simpl; now rewrite IH.
Qed.

Lemma flat_map_lookup_seq_from {A B : Type} (f : A -> list B) (l pre : list A) :
  flat_map (fun i => match (pre ++ l) !! i with Some s => f s | None => [] end)
    (seq (length pre) (length l))
  = flat_map f l.
Proof.
  revert pre. induction l as [|x l IH]; intros pre; simpl; [reflexivity|].
  rewrite list_lookup_middle by reflexivity. f_equal.
  specialize (IH (pre ++ [x])). rewrite <- app_assoc, length_app in IH. simpl in IH.
  replace (length pre + 1) with (S (length pre)) in IH by lia. exact IH.
Qed.

Lemma flat_map_lookup_seq {A B : Type} (f : A -> list B) (l : list A) :
  flat_map (fun i => match l !! i with Some s => f s | None => [] end)
    (seq 0 (length l))
  = flat_map f l.
Proof. apply (flat_map_lookup_seq_from f l []). Qed.

(** Whatever the settle order, the callbacks that resume are all the
    callbacks, each once. *)
Lemma settle_order_permutes {B : Type} (arrival : nat -> nat) (f : Started -> list B)
    (started : list Started) :
  Permutation
    (flat_map (fun i => match started !! i with Some s => f s | None => [] end)
       (settle_order arrival (length started)))
    (flat_map f started).
Proof.
  rewrite <- (flat_map_lookup_seq f started).
  apply Permutation_flat_map. apply sort_by_arrival_perm.
Qed.


Lemma invoke_errors_cons (r : bool) (invokes : list bool) :
  invoke_errors (r :: invokes)
  = (if r then 0 else 1) + invoke_errors invokes.
Proof. unfold invoke_errors. now destruct r. Qed.

(** One error line for each callback that yields [false]. *)
Lemma error_lines_count (verbose : bool) (lambda : nat -> option JsError)
    (env : gmap string string) (next : nat) (fs : list FunctionTarget) :
  length (stderr (dispatch_adds verbose env fs))
  + length (flat_map (fun s => stderr (resume_adds verbose lambda s))
              (started_from env next fs))
  = invoke_errors (map (batch_ok lambda) (started_from env next fs)).
Proof.
  revert next. induction fs as [|f fs IH]; intros next; [reflexivity|].
  cbn [dispatch_adds started_from map flat_map after stderr].
  rewrite !length_app, invoke_errors_cons,
    <- (IH (next + batch_size (resolved_concurrency f env))).
  unfold start_adds, start_value. cbn [stderr].
  destruct (js_Array (resolved_concurrency f env)) as [slots|e]; cbn [resume_adds batch_ok].
  - destruct (Promise_all lambda (seq next (length slots))) as [[]|e]; simpl; lia.
  - simpl. lia.
Qed.

(** One success line for each callback that yields [true]. *)
Lemma success_lines_count (lambda : nat -> option JsError)
    (env : gmap string string) (next : nat) (fs : list FunctionTarget) :
  length (flat_map (fun s => stdout (resume_adds true lambda s))
            (started_from env next fs))
  + invoke_errors (map (batch_ok lambda) (started_from env next fs))
  = length fs.
Proof.
  revert next. induction fs as [|f fs IH]; intros next; [reflexivity|].
  cbn [started_from map flat_map length].
  rewrite !length_app, invoke_errors_cons.
  specialize (IH (next + batch_size (resolved_concurrency f env))).
  unfold start_value.
  destruct (js_Array (resolved_concurrency f env)) as [slots|e]; cbn [resume_adds batch_ok].
  - destruct (Promise_all lambda (seq next (length slots))) as [[]|e]; simpl; lia.
  - simpl. lia.
Qed.

Lemma Promise_all_answered (lambda : nat -> option JsError) (batch : list nat) :
  (forall t : nat, lambda t = None) -> Promise_all lambda batch = Return tt.
Proof.
  intros H. induction batch as [|t batch IH]; simpl; [reflexivity|]. now rewrite H.
Qed.

Lemma invoke_errors_repeat_true (n : nat) : invoke_errors (repeat true n) = 0.
Proof. induction n as [|n IH]; [reflexivity|]. simpl. exact IH. Qed.

Lemma has_char_append (c : ascii) (a b : string) :
  has_char c (a +:+ b) = has_char c a || has_char c b.
Proof.
  induction a as [|x a IH]; [reflexivity|].
  rewrite append_cons. cbn [has_char]. now rewrite IH, orb_assoc.
Qed.

Lemma upper_ascii_replace_idem (c : ascii) :
  let h := fun c : ascii => if Ascii.eqb c "-" then "_"%char else c in
  h (upper_ascii (h (upper_ascii c))) = h (upper_ascii c)
  /\ Ascii.eqb (h (upper_ascii c)) "-" = false.
Proof.
  destruct c as [[] [] [] [] [] [] [] []]; vm_compute; split; reflexivity.
Qed.

Lemma normal_name_idem (s : string) :
  replace_hyphens (toUpperCase (replace_hyphens (toUpperCase s)))
  = replace_hyphens (toUpperCase s).
Proof.
  unfold replace_hyphens, toUpperCase.
  induction s as [|c s IH]; [reflexivity|]. cbn [string_map].
  rewrite IH. f_equal. apply (upper_ascii_replace_idem c).
Qed.

Lemma normal_name_no_hyphen (s : string) :
  has_char "-" (replace_hyphens (toUpperCase s)) = false.
Proof.
  unfold replace_hyphens, toUpperCase.
  induction s as [|c s IH]; [reflexivity|]. cbn [string_map has_char].
  rewrite IH, orb_false_r. apply (upper_ascii_replace_idem c).
Qed.

Section ScriptMore.

Variable verbose : bool.
Variable lambda : nat -> option JsError.
Variable arrival : nat -> nat.

(** X10.  Every request of a run is sent before any response is looked
    at: what is sent, and in what order, is the batches of the functions in
    the order of [functions], whatever the service answers, whatever the
    order in which the batches settle, and whether the script is verbose or
    not.  Nothing is sent again after a failure. *)
Theorem requests_do_not_depend_on_responses (functions : list FunctionTarget)
    (env : gmap string string) (w : World)
    (verbose' : bool) (lambda' : nat -> option JsError) (arrival' : nat -> nat) :
  requests (fst (warmUp functions verbose lambda arrival env w))
  = requests (fst (warmUp functions verbose' lambda' arrival' env w))
  /\ requests (fst (warmUp functions verbose lambda arrival env w))
     = requests w
       ++ concat (map (fun func =>
                         match js_Array (resolved_concurrency func env) with
                         | Return slots => repeat (invokeCommand_of func env) (length slots)
                         | Throw _ => []
                         end) functions).
Proof.
  rewrite !warmUp_run. cbn [fst after requests]. rewrite !app_nil_r.
  rewrite !requests_warmUp_adds. split; [reflexivity|]. f_equal.
  rewrite flat_map_concat_map. f_equal. apply map_ext. intros f.
  unfold batch_size. now destruct (js_Array (resolved_concurrency f env)).
Qed.

(** X11.  A concurrency that is a number but no array length (negative, or
    above 2^32 - 1) sends no request: [Array(concurrency)] throws inside the
    [try], the error is written with the function's name, and the function
    counts as failed. *)
Theorem out_of_range_concurrency_sends_nothing (functions : list FunctionTarget)
    (env : gmap string string) (w : World) (i : nat) (func : FunctionTarget) (n : Z) :
  functions !! i = Some func ->
  snd (getConcurrency verbose func env w) = Return (Int n) ->
  (n < 0 \/ 4294967295 < n)%Z ->
  (forall w' : World,
      start verbose env func w'
      = (fst (console_error ("Warm Up Invoke Error: " +:+ fn_name func)
                (RangeError "Invalid array length")
                (fst (getConcurrency verbose func env w'))),
         Return (Returned false)))
  /\ (forall w' : World, requests (fst (start verbose env func w')) = requests w')
  /\ requests (fst (warmUp functions verbose lambda arrival env w))
     = requests (fst (warmUp (delete i functions) verbose lambda arrival env w))
  /\ exists (w1 : World) (invokes : list bool),
       warmUp_invokes functions verbose lambda arrival env w = (w1, Return invokes)
       /\ invokes !! i = Some false
       /\ In ("Warm Up Invoke Error: " +:+ fn_name func, RangeError "Invalid array length")
            (stderr w1).
Proof.
  intros Hi Hn Hrange. rewrite getConcurrency_run in Hn. simpl in Hn.
  injection Hn as Hres.
  assert (js_Array (resolved_concurrency func env)
          = Throw (RangeError "Invalid array length")) as Harr.
  { rewrite Hres. unfold js_Array.
    destruct (0 <=? n)%Z eqn:E1; [|reflexivity].
    destruct (n <=? 4294967295)%Z eqn:E2; [|reflexivity]. lia. }
  split; [|split; [|split]].
  - intros w'. rewrite start_run, getConcurrency_run, console_error_run.
    cbn [fst]. rewrite after_after. unfold start_adds, start_value, batch_size.
    rewrite Harr. unfold after, error_line. simpl. now rewrite !app_nil_r.
  - intros w'. rewrite start_run. cbn [fst after requests].
    unfold start_adds, batch_size. rewrite Harr. apply app_nil_r.
  - rewrite !warmUp_run. cbn [fst after requests]. rewrite !app_nil_r.
    rewrite !requests_warmUp_adds. f_equal. symmetry.
    apply (flat_map_delete _ _ _ _ Hi). unfold batch_size. now rewrite Harr.
  - rewrite warmUp_invokes_run. eexists _, _. split; [reflexivity|]. split.
    + rewrite list_lookup_fmap.
      destruct (started_from_lookup env functions (length (requests w)) i func Hi)
        as (k & ->).
      unfold start_value. now rewrite Harr.
    + simpl. apply in_or_app. right. apply in_or_app. left.
      apply (stderr_dispatch_adds_holds _ _ _ _ _ _ Hi).
      unfold start_adds. simpl. rewrite Harr. now left.
Qed.

(** X12.  The order in which the batches settle only reorders the lines of
    a run: the values [invokes] holds, the requests and the last line are
    the same for every order, and the lines written are the same lines. *)
Theorem settle_order_only_reorders_lines (functions : list FunctionTarget)
    (env : gmap string string) (w : World) (arrival' : nat -> nat) :
  snd (warmUp_invokes functions verbose lambda arrival env w)
  = snd (warmUp_invokes functions verbose lambda arrival' env w)
  /\ requests (fst (warmUp functions verbose lambda arrival env w))
     = requests (fst (warmUp functions verbose lambda arrival' env w))
  /\ Permutation (stdout (fst (warmUp functions verbose lambda arrival env w)))
       (stdout (fst (warmUp functions verbose lambda arrival' env w)))
  /\ Permutation (stderr (fst (warmUp functions verbose lambda arrival env w)))
       (stderr (fst (warmUp functions verbose lambda arrival' env w)))
  /\ last (stdout (fst (warmUp functions verbose lambda arrival env w)))
     = last (stdout (fst (warmUp functions verbose lambda arrival' env w))).
Proof.
  rewrite !warmUp_invokes_run, !warmUp_run.
  cbn [fst snd after requests stdout stderr]. rewrite !app_nil_r.
  rewrite !requests_warmUp_adds. unfold warmUp_adds.
  cbn [after requests stdout stderr].
  rewrite !stdout_settle_adds_flat_map, !stderr_settle_adds_flat_map.
  split; [reflexivity|]. split; [reflexivity|]. split; [|split].
  - repeat apply Permutation_app; try apply Permutation_refl.
    etransitivity; [apply settle_order_permutes|].
    symmetry. apply settle_order_permutes.
  - repeat apply Permutation_app; try apply Permutation_refl.
    etransitivity; [apply settle_order_permutes|].
    symmetry. apply settle_order_permutes.
  - destruct verbose; cbn [verbose_lines].
    + now rewrite !last_snoc.
    + rewrite !app_nil_r. simpl.
      now rewrite !stdout_dispatch_adds_quiet, <- !stdout_settle_adds_flat_map,
        !stdout_settle_adds_quiet.
Qed.

(** X13.  The number of the last line is the number of error lines: a run
    writes to the error stream one line for each function that counts as
    failed and nothing else, and [invokes] has one value for each
    function. *)
Theorem error_lines_match_the_count (functions : list FunctionTarget)
    (env : gmap string string) (w : World) :
  exists (w1 : World) (invokes : list bool),
    warmUp_invokes functions verbose lambda arrival env w = (w1, Return invokes)
    /\ length invokes = length functions
    /\ length (stderr w1) = length (stderr w) + invoke_errors invokes
    /\ stderr (fst (warmUp functions verbose lambda arrival env w)) = stderr w1
    /\ invoke_errors invokes <= length functions.
Proof.
  rewrite warmUp_run, warmUp_invokes_run. eexists _, _. split; [reflexivity|].
  split; [now rewrite length_map, started_from_length|].
  assert (length (stderr (warmUp_adds functions verbose lambda arrival env
                            (length (requests w))))
          = invoke_errors (map (batch_ok lambda)
                             (started_from env (length (requests w)) functions)))
    as Hcount.
  { unfold warmUp_adds. cbn [after stderr]. rewrite app_nil_l, length_app.
    rewrite stderr_settle_adds_flat_map.
    rewrite (Permutation_length (settle_order_permutes arrival _ _)).
    apply error_lines_count. }
  split; [|split].
  - cbn [after stderr]. now rewrite length_app, Hcount.
  - cbn [fst after stderr]. now rewrite app_nil_r.
  - pose proof (success_lines_count lambda env (length (requests w)) functions). lia.
Qed.


(** X15.  When every resolved concurrency is an array length and the
    service answers every request, a run writes nothing to the error
    stream, every function counts as warmed, and the number of the last
    line is 0. *)
Theorem answered_run_reports_no_error (functions : list FunctionTarget)
    (env : gmap string string) (w : World) :
  (forall func : FunctionTarget,
      In func functions ->
      exists n : Z,
        snd (getConcurrency verbose func env w) = Return (Int n)
        /\ (0 <= n <= 4294967295)%Z) ->
  (forall t : nat, lambda t = None) ->
  exists w1 : World,
    warmUp_invokes functions verbose lambda arrival env w
    = (w1, Return (repeat true (length functions)))
    /\ stderr w1 = stderr w
    /\ warmUp functions verbose lambda arrival env w
       = (fst (logVerbose verbose "Warm Up Finished with 0 invoke errors" w1),
          Return tt).
Proof.
  intros Hrange Hans.
  assert (forall (fs : list FunctionTarget) (next : nat),
             (forall func, In func fs -> In func functions) ->
             map (batch_ok lambda) (started_from env next fs) = repeat true (length fs))
    as Hok.
  { induction fs as [|f fs IH]; intros next Hin; [reflexivity|].
    cbn [started_from map length repeat].
    rewrite IH by (intros; apply Hin; now right). f_equal.
    destruct (Hrange f (Hin f (or_introl eq_refl))) as (n & Hn & Hbound).
    rewrite getConcurrency_run in Hn. simpl in Hn. injection Hn as Hres.
    unfold start_value. rewrite Hres. unfold js_Array.
    replace ((0 <=? n)%Z && (n <=? 4294967295)%Z) with true
      by (symmetry; apply andb_true_intro; split; lia).
    cbn [batch_ok]. now rewrite Promise_all_answered. }
  pose proof (error_lines_count verbose lambda env (length (requests w)) functions)
    as Hcount.
  rewrite Hok, invoke_errors_repeat_true in Hcount by auto.
  rewrite warmUp_run, warmUp_invokes_run, Hok by auto.
  eexists. split; [reflexivity|]. split.
  - unfold warmUp_adds. cbn [after stderr]. rewrite app_nil_l.
    rewrite stderr_settle_adds_flat_map.
    pose proof (Permutation_length
                  (settle_order_permutes arrival
                     (fun s => stderr (resume_adds verbose lambda s))
                     (started_from env (length (requests w)) functions))) as Hlen.
    destruct (stderr (dispatch_adds verbose env functions)); [|simpl in Hcount; lia].
    destruct (flat_map _ (settle_order _ _)); [|simpl in Hlen, Hcount; lia].
    now rewrite !app_nil_r.
  - rewrite logVerbose_run. unfold summary. now rewrite invoke_errors_repeat_true.
Qed.

(** X16.  The variable of a function is named after its name in upper case
    with hyphens turned into underscores: the name of the variable has no
    hyphen, the variable of a function named by that form is the same
    variable, and two functions whose names have the same form read their
    concurrency from the same variable when it is set. *)
Theorem override_variable_is_shared (f g : FunctionTarget) (env : gmap string string)
    (w : World) :
  replace_hyphens (toUpperCase (fn_name g)) = replace_hyphens (toUpperCase (fn_name f)) ->
  truthy_string (env !! concurrency_key f) = true ->
  snd (getConcurrency verbose g env w) = snd (getConcurrency verbose f env w)
  /\ has_char "-" (concurrency_key f) = false
  /\ concurrency_key
       {| fn_name := replace_hyphens (toUpperCase (fn_name f)); fn_config := fn_config g |}
     = concurrency_key f.
Proof.
  intros Hname Hset.
  assert (concurrency_key g = concurrency_key f) as Hkey
    by (unfold concurrency_key; now rewrite Hname).
  split; [|split].
  - rewrite !getConcurrency_run. cbn [snd]. unfold resolved_concurrency.
    now rewrite Hkey, Hset.
  - unfold concurrency_key. rewrite has_char_append, normal_name_no_hyphen.
    reflexivity.
  - unfold concurrency_key. cbn [fn_name]. now rewrite normal_name_idem.
Qed.

End ScriptMore.

(** ** More on the numbers the script reads *)






Section OverrideNumbers.

Variable verbose : bool.


End OverrideNumbers.

(** ** More instances *)

Lemma role_synthesizer_throws_with_role_assigned_witness :
  null_resources hollow_shop = true
  /\ exists message : string,
       addWarmUpFunctionRoleToResources capitalize_first hollow_shop (JStr "dev")
         "default" shop_warmer
       = (hollow_shop, with_role (JStr "WarmUpPluginDefaultRole") shop_warmer,
          Throw (TypeError message)).
Proof.
  split; [reflexivity|].
  exact (role_synthesizer_throws_with_role_assigned capitalize_first hollow_shop
           (JStr "dev") "default" shop_warmer eq_refl).
Defined.


Lemma role_synthesizer_is_idempotent_witness :
  null_resources stocked_shop = false
  /\ exists (service' : Service) (warmerConfig' : WarmerConfig),
       addWarmUpFunctionRoleToResources capitalize_first stocked_shop (JStr "dev")
         "default" shop_warmer
       = (service', warmerConfig', Return tt)
       /\ addWarmUpFunctionRoleToResources capitalize_first service' (JStr "dev")
            "default" warmerConfig'
          = (service', warmerConfig', Return tt).
Proof.
  split; [reflexivity|].
  exact (role_synthesizer_is_idempotent capitalize_first stocked_shop (JStr "dev")
           "default" shop_warmer eq_refl).
Defined.

Lemma two_warmers_two_roles_witness :
  (null_resources stocked_shop = false
   /\ capitalize_first "default" <> capitalize_first "nightly")
  /\ exists (service1 service2 : Service) (config1' config2' : WarmerConfig),
       addWarmUpFunctionRoleToResources capitalize_first stocked_shop (JStr "dev")
         "default" shop_warmer
       = (service1, config1', Return tt)
       /\ addWarmUpFunctionRoleToResources capitalize_first service1 (JStr "dev")
            "nightly" windows_warmer
          = (service2, config2', Return tt)
       /\ own_of (own_of (svc_resources service2) "Resources") "WarmUpPluginDefaultRole"
          = role_document stocked_shop (JStr "dev") "default" config1'
       /\ own_of (own_of (svc_resources service2) "Resources") "WarmUpPluginNightlyRole"
          = role_document stocked_shop (JStr "dev") "nightly" config2'.
Proof.
  assert (capitalize_first "default" <> capitalize_first "nightly") as Hne
    by (vm_compute; discriminate).
  split; [split; [reflexivity|exact Hne]|].
  destruct (two_warmers_two_roles capitalize_first stocked_shop (JStr "dev")
              "default" "nightly" shop_warmer windows_warmer eq_refl Hne)
    as (s1 & s2 & c1 & c2 & H1 & H2 & _ & H4 & H5).
  exists s1, s2, c1, c2. split; [exact H1|]. split; [exact H2|].
  split; [exact H4|exact H5].
Defined.

Lemma manifest_handler_is_posix_witness :
  backslash <> "/"%char
  /\ exists handler : string,
       own "handler" (function_definition backslash "default" windows_warmer)
       = JStr handler
       /\ has_char backslash handler = false.
Proof.
  assert (backslash <> "/"%char) as Hsep by discriminate.
  split; [exact Hsep|].
  destruct (manifest_handler_is_posix backslash "default" windows_warmer)
    as (handler & H1 & _ & H3 & _).
  exists handler. split; [exact H1|exact (H3 Hsep)].
Defined.

Lemma artifact_stops_at_first_failure_witness :
  exists (made done : list Effect) (last : Effect) (rest : list Effect),
    fst (createWarmUpFunctionArtifact posix_join write_fails (jarray []) true false
           "eu-west-1" ".warmup/default" [])
    = made
    /\ made = done ++ [last]
    /\ [ Mkdir ".warmup/default";
         WriteFile (posix_join ".warmup/default" "index.mjs")
           (render (jarray []) true false "eu-west-1");
         Exec "npm init -y" ".warmup/default";
         Exec "npm install --save aws-xray-sdk-core" ".warmup/default" ]
       = made ++ rest
    /\ write_fails done last = Some (HostError "EACCES").
Proof.
  destruct (artifact_stops_at_first_failure posix_join write_fails (jarray []) true false
              "eu-west-1" ".warmup/default" [])
    as (made & H1 & H2 & _).
  assert (snd (createWarmUpFunctionArtifact posix_join write_fails (jarray []) true false
                 "eu-west-1" ".warmup/default" [])
          = Throw (HostError "EACCES")) as E by reflexivity.
  rewrite E in H2. destruct H2 as (done & last & rest & H3 & H4 & H5).
  exists made, done, last, rest.
  split; [exact H1|]. split; [exact H3|]. split; [exact H4|exact H5].
Defined.

Lemma out_of_range_concurrency_sends_nothing_witness :
  ([overdrawn; bar] !! 0 = Some overdrawn
   /\ snd (getConcurrency false overdrawn no_env nothing) = Return (Int (-1))
   /\ (-1 < 0 \/ 4294967295 < -1)%Z)
  /\ requests (fst (warmUp [overdrawn; bar] false always_answers in_order no_env nothing))
     = requests (fst (warmUp [bar] false always_answers in_order no_env nothing))
  /\ exists (w1 : World) (invokes : list bool),
       warmUp_invokes [overdrawn; bar] false always_answers in_order no_env nothing
       = (w1, Return invokes)
       /\ invokes !! 0 = Some false.
Proof.
  assert (snd (getConcurrency false overdrawn no_env nothing) = Return (Int (-1))) as Hn
    by (vm_compute; reflexivity).
  assert (-1 < 0 \/ 4294967295 < -1)%Z as Hrange by (left; lia).
  split; [split; [reflexivity|split; [exact Hn|exact Hrange]]|].
  destruct (out_of_range_concurrency_sends_nothing false always_answers in_order
              [overdrawn; bar] no_env nothing 0 overdrawn (-1) eq_refl Hn Hrange)
    as (_ & _ & H3 & w1 & invokes & H4 & H5 & _).
  split; [exact H3|]. exists w1, invokes. split; [exact H4|exact H5].
Defined.

Lemma answered_run_reports_no_error_witness :
  ((forall func : FunctionTarget,
       In func [foo; bar] ->
       exists n : Z,
         snd (getConcurrency true func no_env nothing) = Return (Int n)
         /\ (0 <= n <= 4294967295)%Z)
   /\ forall t : nat, always_answers t = None)
  /\ exists w1 : World,
       warmUp_invokes [foo; bar] true always_answers in_order no_env nothing
       = (w1, Return [true; true])
       /\ stderr w1 = []
       /\ warmUp [foo; bar] true always_answers in_order no_env nothing
          = (fst (logVerbose true "Warm Up Finished with 0 invoke errors" w1), Return tt).
Proof.
  assert (forall func : FunctionTarget,
             In func [foo; bar] ->
             exists n : Z,
               snd (getConcurrency true func no_env nothing) = Return (Int n)
               /\ (0 <= n <= 4294967295)%Z) as Hrange.
  { intros func [<-|[<-|[]]].
    - exists 5%Z. split; [vm_compute; reflexivity|lia].
    - exists 1%Z. split; [vm_compute; reflexivity|lia]. }
  assert (forall t : nat, always_answers t = None) as Hans by reflexivity.
  split; [split; [exact Hrange|exact Hans]|].
  exact (answered_run_reports_no_error true always_answers in_order [foo; bar] no_env
           nothing Hrange Hans).
Defined.

Lemma override_variable_is_shared_witness :
  (replace_hyphens (toUpperCase (fn_name MY_FUNC))
   = replace_hyphens (toUpperCase (fn_name my_func))
   /\ truthy_string (env_my_func_4 !! concurrency_key my_func) = true)
  /\ snd (getConcurrency false MY_FUNC env_my_func_4 nothing)
     = snd (getConcurrency false my_func env_my_func_4 nothing).
Proof.
  assert (truthy_string (env_my_func_4 !! concurrency_key my_func) = true) as Hset
    by (vm_compute; reflexivity).
  split; [split; [reflexivity|exact Hset]|].
  destruct (override_variable_is_shared false my_func MY_FUNC env_my_func_4 nothing
              eq_refl Hset) as (H & _).
  exact H.
Defined.

